(** * myst_nb.converter: MyST text to notebook conversion

    A shallow embedding of [src/myst_nb/converter.py]: the dialect
    detector [is_myst_notebook], the helpers [strip_blank_lines],
    [read_fenced_cell] and [read_cell_metadata], and the token scan of
    [myst_to_notebook].

    Python values are modelled as the code has them:
    - a [str] is a sequence of Unicode code points;
    - an exception is a value of [exn], and fallible code lives in the
      error monad [result];
    - the objects produced by the YAML, JSON and directive-option parsers
      are values of [pyval];
    - the libraries the converter calls (markdown-it tokenizer,
      [yaml.safe_load], [json.loads], [parse_directive_text], nbformat)
      are the fields of the class [Collaborators]. *)

From Stdlib Require Import List ZArith NArith Arith Lia Bool.
From Stdlib Require Import String Ascii.
From Stdlib Require DecimalString.
Import ListNotations.

Set Implicit Arguments.
Set Warnings "-register-all".

(** ** Python strings *)

Definition char := N.
Definition str := list char.

(** [u "abc"] is the Python literal ["abc"]. *)
Definition u (s : string) : str := List.map N_of_ascii (list_ascii_of_string s).
Arguments u s%_string.

Definition NL : char := 10%N.
Definition CR : char := 13%N.

Fixpoint str_eqb (a b : str) : bool :=
  match a, b with
  | [], [] => true
  | x :: a', y :: b' => N.eqb x y && str_eqb a' b'
  | _, _ => false
  end.

(** [s.startswith(prefix)] *)
Fixpoint startswith (s prefix : str) {struct prefix} : bool :=
  match prefix, s with
  | [], _ => true
  | p :: prefix', c :: s' => N.eqb c p && startswith s' prefix'
  | _ :: _, [] => false
  end.

(** [needle in s] for two strings. *)
Fixpoint str_contains (s needle : str) : bool :=
  startswith s needle ||
  match s with
  | [] => false
  | _ :: s' => str_contains s' needle
  end.

(** The characters [str.isspace] accepts; [str.strip], [str.rstrip] and
    [str.lstrip] without argument remove exactly these. *)
Definition is_space (c : char) : bool :=
  ((9 <=? c) && (c <=? 13) || (28 <=? c) && (c <=? 32)
   || (c =? 133) || (c =? 160) || (c =? 5760)
   || (8192 <=? c) && (c <=? 8202)
   || (c =? 8232) || (c =? 8233) || (c =? 8239) || (c =? 8287)
   || (c =? 12288))%N.

(** The line boundaries of [str.splitlines]. *)
Definition is_linebreak (c : char) : bool :=
  ((10 <=? c) && (c <=? 13) || (28 <=? c) && (c <=? 30)
   || (c =? 133) || (c =? 8232) || (c =? 8233))%N.

Fixpoint dropwhile {A : Type} (p : A -> bool) (s : list A) : list A :=
  match s with
  | [] => []
  | c :: s' => if p c then dropwhile p s' else s
  end.

Definition lstrip (s : str) : str := dropwhile is_space s.
Definition rstrip (s : str) : str := rev (dropwhile is_space (rev s)).
Definition strip (s : str) : str := lstrip (rstrip s).

(** [s.splitlines()]: [cur] holds, reversed, the characters of the line
    being read; a line is closed at each line boundary ("\r\n" counts
    once), and a last line is produced only when it is non-empty. *)
Fixpoint splitlines_from (cur : str) (s : str) : list str :=
  match s with
  | [] => match cur with [] => [] | _ => [rev cur] end
  | c :: s' =>
      if N.eqb c CR then
        match s' with
        | d :: s'' =>
            if N.eqb d NL then rev cur :: splitlines_from [] s''
            else rev cur :: splitlines_from [] s'
        | [] => rev cur :: splitlines_from [] s'
        end
      else if is_linebreak c then rev cur :: splitlines_from [] s'
      else splitlines_from (c :: cur) s'
  end.

Definition splitlines (s : str) : list str := splitlines_from [] s.

(** [sep.join(parts)] *)
Fixpoint join (sep : str) (parts : list str) : str :=
  match parts with
  | [] => []
  | [p] => p
  | p :: rest => p ++ sep ++ join sep rest
  end.

(** [l[s:e]] for non-negative [s] and [e]. *)
Definition slice {A : Type} (l : list A) (s e : nat) : list A :=
  firstn (e - s) (skipn s l).

(** ["{}".format(n)] for a non-negative integer. *)
Definition dec (n : nat) : str := u (DecimalString.NilEmpty.string_of_uint (Nat.to_uint n)).

(** ** Python objects, exceptions *)

(** The values [yaml.safe_load] and [json.loads] build (the JSON data
    model).  A [dict] keeps its keys in insertion order, each key once;
    only string keys are ever looked up by the converter.  A float is
    kept as its literal: the converter never computes with one. *)
Inductive pyval : Type :=
  | PNone
  | PBool (b : bool)
  | PInt (z : Z)
  | PFloat (literal : str)
  | PStr (s : str)
  | PList (l : list pyval)
  | PDict (d : list (str * pyval)).

Definition dict := list (str * pyval).

(** [k in d] and [d[k]] for a dict. *)
Fixpoint dict_lookup (d : dict) (k : str) : option pyval :=
  match d with
  | [] => None
  | (k', v) :: d' => if str_eqb k' k then Some v else dict_lookup d' k
  end.

(** [d[k] = v] *)
Fixpoint dict_set (d : dict) (k : str) (v : pyval) : dict :=
  match d with
  | [] => [(k, v)]
  | (k', v') :: d' =>
      if str_eqb k' k then (k, v) :: d' else (k', v') :: dict_set d' k v
  end.

Inductive yaml_error_class := ParserError | ScannerError | OtherYAMLError.

Inductive exn : Type :=
  | MystMetadataParsingError (msg : str)
  | IOError (msg : str)
  | YAMLError (cls : yaml_error_class) (msg : str)
  | NotebookValidationError (msg : str)
  | IndexError
  | AttributeError
  | TypeError.

Inductive result (A : Type) : Type :=
  | Return (a : A)
  | Raise (e : exn).
Arguments Return {A} a.
Arguments Raise {A} e.

Definition bind {A B : Type} (m : result A) (k : A -> result B) : result B :=
  match m with
  | Return a => k a
  | Raise e => Raise e
  end.

Notation "x <- m ;; k" := (bind m (fun x => k))
  (at level 61, m at next level, right associativity).
Notation "' pat <- m ;; k" := (bind m (fun x => match x with pat => k end))
  (at level 61, pat pattern, m at next level, right associativity).

(** [v.get(k, default)]: only a dict has the method. *)
Definition py_get (v : pyval) (k : str) (default : pyval) : result pyval :=
  match v with
  | PDict d => Return (match dict_lookup d k with Some x => x | None => default end)
  | _ => Raise AttributeError
  end.

(** [v == s] for a string literal [s]. *)
Definition py_eq_str (v : pyval) (s : str) : bool :=
  match v with
  | PStr s' => str_eqb s' s
  | _ => false
  end.

(** [k in v] for a string literal [k]: key membership in a dict, substring
    test in a string, element test in a list, [TypeError] otherwise. *)
Definition py_in (k : str) (v : pyval) : result bool :=
  match v with
  | PDict d => Return (match dict_lookup d k with Some _ => true | None => false end)
  | PStr s => Return (str_contains s k)
  | PList l => Return (existsb (fun x => py_eq_str x k) l)
  | _ => Raise TypeError
  end.

(** ** Tokens, cells, notebooks *)

(** A markdown-it token, with the attributes the converter reads.  [map]
    is the line span [[begin, end]]; the tokenizer sets it on every
    front_matter, fence and myst_block_break token, the only tokens whose
    span is read. *)
Module Token.
Record t : Type := make {
  type : str;
  nesting : Z;
  info : str;
  content : str;
  map : nat * nat
}.
End Token.

Inductive cell_type := markdown | code | raw.

(** An nbformat v4 cell.  [cell_id] is the [id] nbformat 5.1 and later
    gives a new cell, and [None] with an nbformat that gives none.  The
    fields nbformat fills with constants ([outputs], [execution_count])
    are left out. *)
Record Cell : Type := new_cell {
  cell_kind : cell_type;
  cell_id : option str;
  source : str;
  metadata : dict
}.

Record Notebook : Type := new_notebook {
  nb_metadata : pyval;
  cells : list Cell
}.

(** The value stored under [_source_lines]. *)
Definition source_lines (a b : nat) : pyval :=
  PList [PInt (Z.of_nat a); PInt (Z.of_nat b)].

(** ** The libraries the converter calls *)

Inductive yaml_outcome :=
  | YamlValue (v : pyval)
  | YamlError (cls : yaml_error_class) (msg : str).

(** [parse_directive_text] returns, raises [DirectiveParsingError], or
    lets through an exception of the YAML parser that it does not catch
    (a [ComposerError], say). *)
Inductive directive_outcome :=
  | DirectiveParsed (options : dict) (body_lines : list str)
  | DirectiveParsingError (msg : str)
  | DirectiveYAMLError (cls : yaml_error_class) (msg : str).

(** nbformat enters in three ways.  Its cell constructors validate the
    node they have built against the notebook JSON schema and raise
    [NotebookValidationError] when it is rejected: the source is a string
    and the other fields are nbformat's own, so that what the schema can
    reject is the metadata.  [new_notebook] validates the notebook it has
    built, with no cells yet, in the same way.  And nbformat 5.1 and
    later draws the id of each new cell at random: [random_cell_id k] is
    the id drawn for the cell created after [k] others in a run.

    Three facts of the schema are part of the interface: empty metadata
    is valid, the key [_source_lines] is not constrained, and a notebook
    with empty metadata is valid. *)
Class Collaborators : Type := {
  (** [default_parser("html", disable_syntax=["inline"]).parse] *)
  parse : str -> list Token.t;
  (** [yaml.safe_load] *)
  yaml_safe_load : str -> yaml_outcome;
  (** [json.loads]: the object, or the message of the exception *)
  json_loads : str -> str + pyval;
  (** [parse_directive_text(MockDirective, "", content, validate_options=False)] *)
  parse_directive_text : str -> directive_outcome;
  (** [validate(cell, ref)] in a cell constructor: [None], or the message
      of the [NotebookValidationError] *)
  validate_cell : cell_type -> dict -> option str;
  (** [validate(nb)] in [new_notebook] *)
  validate_notebook : pyval -> option str;
  (** [random_cell_id()] *)
  random_cell_id : nat -> option str;
  validate_cell_empty :
    forall kind, validate_cell kind [] = None;
  validate_cell_source_lines :
    forall kind d v,
      validate_cell kind (dict_set d (u "_source_lines") v) = validate_cell kind d;
  validate_notebook_empty :
    validate_notebook (PDict []) = None
}.

(** ** The converter *)

Definition CODE_DIRECTIVE : str := u "{code-cell}".
Definition RAW_DIRECTIVE : str := u "{raw-cell}".

(** The keyword arguments of [myst_to_notebook]. *)
Record Config : Type := {
  code_directive : str;
  raw_directive : str;
  store_line_numbers : bool
}.

Definition default_config : Config :=
  {| code_directive := CODE_DIRECTIVE;
     raw_directive := RAW_DIRECTIVE;
     store_line_numbers := false |}.

(** The [while] loop of [strip_blank_lines]. *)
Fixpoint drop_leading_newlines (text : str) : str :=
  match text with
  | [] => []
  | c :: text' => if N.eqb c NL then drop_leading_newlines text' else text
  end.

Definition strip_blank_lines (text : str) : str :=
  drop_leading_newlines (rstrip text).

(** The state of the token scan of [myst_to_notebook]: the local
    variables [nesting_level], [md_metadata], [md_start_line] and the
    list [notebook.cells]. *)
Record State : Type := {
  nesting_level : Z;
  md_metadata : dict;
  md_start_line : nat;
  notebook_cells : list Cell
}.

Section Converter.

Context {C : Collaborators}.

(** [nbf_version.new_markdown_cell(source=..., metadata=...)], and the
    code and raw constructors: the cell, created after [created] others,
    or the exception of nbformat's validation. *)
Definition new_cell_of (kind : cell_type) (created : nat) (source : str)
           (metadata : dict) : result Cell :=
  match validate_cell kind metadata with
  | None => Return (new_cell kind (random_cell_id created) source metadata)
  | Some msg => Raise (NotebookValidationError msg)
  end.

Definition new_markdown_cell := new_cell_of markdown.
Definition new_code_cell := new_cell_of code.
Definition new_raw_cell := new_cell_of raw.

(** The [for] loop of [is_myst_notebook] collecting [yaml_lines]. *)
Fixpoint collect_yaml_lines (lines : list str) : list str :=
  match lines with
  | [] => []
  | line :: rest =>
      if startswith line (u "---") || startswith line (u "...") then []
      else line :: collect_yaml_lines rest
  end.

(** [yaml.safe_load] inside [is_myst_notebook]: no exception is caught. *)
Definition safe_load (text : str) : result pyval :=
  match yaml_safe_load text with
  | YamlValue v => Return v
  | YamlError cls msg => Raise (YAMLError cls msg)
  end.

Definition is_myst_notebook (inputstring : str) : result bool :=
  match splitlines inputstring with
  | [] => Return false
  | first :: rest =>
      if negb (startswith first (u "---")) then Return false
      else
        front_matter <- safe_load (join [NL] (collect_yaml_lines rest)) ;;
        jupytext <- py_get front_matter (u "jupytext") (PDict []) ;;
        text_representation <- py_get jupytext (u "text_representation") (PDict []) ;;
        format_name <- py_get text_representation (u "format_name") PNone ;;
        if negb (py_eq_str format_name (u "myst")) then Return false
        else
          kernelspec <- py_get front_matter (u "kernelspec") (PDict []) ;;
          has_name <- py_in (u "name") kernelspec ;;
          if negb has_name then
            Raise (IOError (u "A myst notebook text-representation requires kernelspec/name metadata"))
          else
            kernelspec <- py_get front_matter (u "kernelspec") (PDict []) ;;
            has_display_name <- py_in (u "display_name") kernelspec ;;
            if negb has_display_name then
              Raise (IOError (u "A myst notebook text-representation requires kernelspec/display_name metadata"))
            else Return true
  end.

Definition read_fenced_cell (token : Token.t) (cell_index : nat) (cell_type : str)
  : result (dict * list str) :=
  match parse_directive_text (Token.content token) with
  | DirectiveParsed options body_lines => Return (options, body_lines)
  | DirectiveParsingError err =>
      Raise (MystMetadataParsingError
               (cell_type ++ u " cell " ++ dec cell_index ++ u " at line "
                ++ dec (fst (Token.map token) + 1) ++ u " could not be read: " ++ err))
  | DirectiveYAMLError cls msg => Raise (YAMLError cls msg)
  end.

Definition read_cell_metadata (token : Token.t) (cell_index : nat) : result dict :=
  match Token.content token with
  | [] => Return []
  | _ :: _ =>
      match json_loads (strip (Token.content token)) with
      | inl err =>
          Raise (MystMetadataParsingError
                   (u "Markdown cell " ++ dec cell_index ++ u " at line "
                    ++ dec (fst (Token.map token) + 1) ++ u " could not be read: " ++ err))
      | inr (PDict metadata) => Return metadata
      | inr _ =>
          Raise (MystMetadataParsingError
                   (u "Markdown cell " ++ dec cell_index ++ u " at line "
                    ++ dec (fst (Token.map token) + 1) ++ u " is not a dict"))
      end
  end.

Section Scan.

Variable cfg : Config.
(** [lines = text.splitlines()] *)
Variable lines : list str.

(** The closure [_flush_markdown]; it returns the new [notebook.cells],
    or raises when nbformat rejects the cell. *)
Definition _flush_markdown (start_line : nat) (token : option Token.t)
           (md_metadata : dict) (cells : list Cell) : result (list Cell) :=
  let endline := match token with
                 | Some t => fst (Token.map t)
                 | None => List.length lines
                 end in
  let md_source := strip_blank_lines (join [NL] (slice lines start_line endline)) in
  let meta := md_metadata in
  let meta := if store_line_numbers cfg
              then dict_set meta (u "_source_lines") (source_lines start_line endline)
              else meta in
  match md_source with
  | [] => Return cells
  | _ :: _ =>
      cell <- new_markdown_cell (List.length cells) md_source meta ;;
      Return (cells ++ [cell])
  end.

(** The branch shared by code and raw fences. *)
Definition fenced_cell (st : State) (level : Z) (token : Token.t)
           (cell_type : str) (new : nat -> str -> dict -> result Cell)
  : result State :=
  cells <- _flush_markdown (md_start_line st) (Some token)
                           (md_metadata st) (notebook_cells st) ;;
  '(options, body_lines) <- read_fenced_cell token (List.length cells) cell_type ;;
  let meta := options in
  let meta := if store_line_numbers cfg
              then dict_set meta (u "_source_lines")
                     (source_lines (fst (Token.map token) + 1) (snd (Token.map token)))
              else meta in
  cell <- new (List.length cells) (join [NL] body_lines) meta ;;
  Return {| nesting_level := level;
            md_metadata := [];
            md_start_line := snd (Token.map token);
            notebook_cells := cells ++ [cell] |}.

(** One iteration of the [for token in tokens] loop. *)
Definition step (st : State) (token : Token.t) : result State :=
  let level := (nesting_level st + Token.nesting token)%Z in
  if negb (level =? 0)%Z then
    Return {| nesting_level := level;
              md_metadata := md_metadata st;
              md_start_line := md_start_line st;
              notebook_cells := notebook_cells st |}
  else if str_eqb (Token.type token) (u "fence")
          && startswith (Token.info token) (code_directive cfg) then
    fenced_cell st level token (u "Code") new_code_cell
  else if str_eqb (Token.type token) (u "fence")
          && startswith (Token.info token) (raw_directive cfg) then
    fenced_cell st level token (u "Raw") new_raw_cell
  else if str_eqb (Token.type token) (u "myst_block_break") then
    cells <- _flush_markdown (md_start_line st) (Some token)
                             (md_metadata st) (notebook_cells st) ;;
    md_metadata' <- read_cell_metadata token (List.length cells) ;;
    Return {| nesting_level := level;
              md_metadata := md_metadata';
              md_start_line := snd (Token.map token);
              notebook_cells := cells |}
  else
    Return {| nesting_level := level;
              md_metadata := md_metadata st;
              md_start_line := md_start_line st;
              notebook_cells := notebook_cells st |}.

(** The whole [for] loop. *)
Fixpoint scan (st : State) (tokens : list Token.t) : result State :=
  match tokens with
  | [] => Return st
  | token :: rest => st' <- step st token ;; scan st' rest
  end.

End Scan.

(** The front-matter block of [myst_to_notebook]: it returns
    [md_start_line], [metadata_nb] and the tokens left to scan. *)
Definition read_front_matter (tokens : list Token.t)
  : result (nat * pyval * list Token.t) :=
  match tokens with
  | [] => Raise IndexError
  | first :: rest =>
      if str_eqb (Token.type first) (u "front_matter") then
        match yaml_safe_load (Token.content first) with
        | YamlValue metadata_nb => Return (snd (Token.map first), metadata_nb, rest)
        | YamlError ParserError error | YamlError ScannerError error =>
            Raise (MystMetadataParsingError (u "Notebook metadata: " ++ error))
        | YamlError OtherYAMLError error => Raise (YAMLError OtherYAMLError error)
        end
      else Return (0, PDict [], tokens)
  end.

(** [nbf_version.new_notebook(metadata=...)]: the metadata the notebook
    is created with, or the exception of nbformat's validation. *)
Definition new_notebook_metadata (metadata_nb : pyval) : result pyval :=
  match validate_notebook metadata_nb with
  | None => Return metadata_nb
  | Some msg => Raise (NotebookValidationError msg)
  end.

(** [myst_to_notebook] after tokenization. *)
Definition notebook_of_tokens (cfg : Config) (text : str) (tokens : list Token.t)
  : result Notebook :=
  let lines := splitlines text in
  '(start_line, metadata_nb, tokens) <- read_front_matter tokens ;;
  metadata_nb <- new_notebook_metadata metadata_nb ;;
  st <- scan cfg lines
          {| nesting_level := 0;
             md_metadata := [];
             md_start_line := start_line;
             notebook_cells := [] |} tokens ;;
  cells <- _flush_markdown cfg lines (md_start_line st) None
                           (md_metadata st) (notebook_cells st) ;;
  Return (new_notebook metadata_nb cells).

Definition myst_to_notebook (cfg : Config) (text : str) : result Notebook :=
  notebook_of_tokens cfg text (parse (text ++ [NL])).

End Converter.

(** ** The callers of the converter

    [string_to_notebook] and [path_to_notebook] choose a reader by the
    extension of the document's path.  [os.path.splitext], nbformat's
    readers and the file system are the fields of [Host]; an exception of
    theirs is kept as its message. *)

Inductive outcome (A : Type) : Type :=
  | Value (a : A)
  | Raised (e : exn)
  | HostRaised (msg : str).
Arguments Value {A} a.
Arguments Raised {A} e.
Arguments HostRaised {A} msg.

(** What a reader returns: the node nbformat read from an ipynb document,
    or the notebook the converter built. *)
Inductive read_notebook : Type :=
  | Ipynb (node : pyval)
  | Myst (nb : Notebook).

Class Host : Type := {
  (** [os.path.splitext] *)
  splitext : str -> str * str;
  (** [nbf.reads(text, nbf.NO_CONVERT)] *)
  nbf_reads : str -> str + pyval;
  (** [nbf.read(path, nbf.NO_CONVERT)] *)
  nbf_read : str -> str + pyval;
  (** [Path(path).read_text()] *)
  read_text : str -> str + str
}.

(** The attributes of the Sphinx environment [string_to_notebook] reads. *)
Record Env : Type := {
  docname : str;
  doc2path : str -> str
}.

Definition converted (r : result Notebook) : outcome read_notebook :=
  match r with
  | Return nb => Value (Myst nb)
  | Raise e => Raised e
  end.

Definition string_to_notebook {C : Collaborators} {H : Host}
           (inputstring : str) (env : Env) : outcome (option read_notebook) :=
  let extension := snd (splitext (doc2path env (docname env))) in
  if str_eqb extension (u ".ipynb") then
    match nbf_reads inputstring with
    | inr node => Value (Some (Ipynb node))
    | inl msg => HostRaised msg
    end
  else
    match is_myst_notebook inputstring with
    | Raise e => Raised e
    | Return true =>
        match myst_to_notebook default_config inputstring with
        | Return nb => Value (Some (Myst nb))
        | Raise e => Raised e
        end
    | Return false => Value None
    end.

Definition path_to_notebook {C : Collaborators} {H : Host} (path : str)
  : outcome read_notebook :=
  let extension := snd (splitext path) in
  if str_eqb extension (u ".ipynb") then
    match nbf_read path with
    | inr node => Value (Ipynb node)
    | inl msg => HostRaised msg
    end
  else
    match read_text path with
    | inr text => converted (myst_to_notebook default_config text)
    | inl msg => HostRaised msg
    end.

(** ** The vocabulary of the specification *)

Definition is_code_fence (cfg : Config) (token : Token.t) : bool :=
  str_eqb (Token.type token) (u "fence")
  && startswith (Token.info token) (code_directive cfg).

Definition is_raw_fence (cfg : Config) (token : Token.t) : bool :=
  str_eqb (Token.type token) (u "fence")
  && startswith (Token.info token) (raw_directive cfg).

Definition is_break (token : Token.t) : bool :=
  str_eqb (Token.type token) (u "myst_block_break").

(** A fence with a directive name or a document break: at top level, a
    token that starts a new cell. *)
Definition is_boundary (cfg : Config) (token : Token.t) : bool :=
  is_code_fence cfg token || is_raw_fence cfg token || is_break token.

Definition with_level (st : State) (level : Z) : State :=
  {| nesting_level := level;
     md_metadata := md_metadata st;
     md_start_line := md_start_line st;
     notebook_cells := notebook_cells st |}.


(** The fence tokens "whose info string starts with the configured
    directive name and whose running nesting level is exactly 0 after
    adding the token's nesting delta", in stream order. *)
Fixpoint top_level_directive_fences (cfg : Config) (level : Z)
         (tokens : list Token.t) : list Token.t :=
  match tokens with
  | [] => []
  | token :: rest =>
      let level' := (level + Token.nesting token)%Z in
      if (level' =? 0)%Z && (is_code_fence cfg token || is_raw_fence cfg token)
      then token :: top_level_directive_fences cfg level' rest
      else top_level_directive_fences cfg level' rest
  end.

(** The document-break tokens of a stream. *)
Definition break_tokens (tokens : list Token.t) : list Token.t :=
  filter is_break tokens.

(** The tokens that start a cell at top level, counted along the stream. *)
Fixpoint top_level_boundaries (cfg : Config) (level : Z)
         (tokens : list Token.t) : nat :=
  match tokens with
  | [] => 0
  | token :: rest =>
      let level' := (level + Token.nesting token)%Z in
      (if (level' =? 0)%Z && is_boundary cfg token then 1 else 0)
      + top_level_boundaries cfg level' rest
  end.

(** The nesting level after a run of tokens. *)
Definition level_after (level : Z) (tokens : list Token.t) : Z :=
  fold_left (fun l token => (l + Token.nesting token)%Z) tokens level.


(** The metadata a fenced cell gets from its options. *)
Definition fenced_metadata (cfg : Config) (token : Token.t) (options : dict) : dict :=
  if store_line_numbers cfg
  then dict_set options (u "_source_lines")
         (source_lines (fst (Token.map token) + 1) (snd (Token.map token)))
  else options.

(** The metadata a markdown cell gets from the pending metadata. *)
Definition markdown_metadata (cfg : Config) (start_line endline : nat)
           (md_metadata : dict) : dict :=
  if store_line_numbers cfg
  then dict_set md_metadata (u "_source_lines") (source_lines start_line endline)
  else md_metadata.

(** The tokens the scan iterates over: the stream without its leading
    front-matter token. *)
Definition scanned_tokens (tokens : list Token.t) : list Token.t :=
  match tokens with
  | [] => []
  | first :: rest =>
      if str_eqb (Token.type first) (u "front_matter") then rest else tokens
  end.

(** The state the scan starts in: markdown starts at line 0, or at the
    end line of the front-matter token. *)
Definition initial_state (tokens : list Token.t) : State :=
  {| nesting_level := 0;
     md_metadata := [];
     md_start_line :=
       match tokens with
       | [] => 0
       | first :: _ =>
           if str_eqb (Token.type first) (u "front_matter")
           then snd (Token.map first) else 0
       end;
     notebook_cells := [] |}.

(** The cell a top-level directive fence becomes. *)
Definition fence_cell {C : Collaborators} (cfg : Config) (token : Token.t)
           (cell : Cell) : Prop :=
  exists options body_lines created,
    parse_directive_text (Token.content token) = DirectiveParsed options body_lines
    /\ cell = new_cell (if is_code_fence cfg token then code else raw)
                       (random_cell_id created)
                       (join [NL] body_lines)
                       (fenced_metadata cfg token options).


(** [v.get(k, default)] on a dict. *)
Definition get_or (d : dict) (k : str) (default : pyval) : pyval :=
  match dict_lookup d k with
  | Some x => x
  | None => default
  end.

(** The block [is_myst_notebook] hands to the YAML parser, when the first
    line opens a front matter. *)
Definition front_matter_block (inputstring : str) : option str :=
  match splitlines inputstring with
  | [] => None
  | first :: rest =>
      if startswith first (u "---")
      then Some (join [NL] (collect_yaml_lines rest))
      else None
  end.

(** [tree.a.b.c]: the value at a path of keys through nested maps. *)
Fixpoint lookup_path (v : pyval) (path : list str) : option pyval :=
  match path with
  | [] => Some v
  | k :: path' =>
      match v with
      | PDict d =>
          match dict_lookup d k with
          | Some x => lookup_path x path'
          | None => None
          end
      | _ => None
      end
  end.

(** A blank line: empty, or holding only whitespace. *)
Definition is_blank_line (line : str) : bool := forallb is_space line.

(** Modelled on the words of the specification of the markdown flush:
    "slice the original source lines from start to end (exclusive), strip
    all trailing blank lines and all leading blank lines". *)
Definition spec_flush_source (lines : list str) (start_line endline : nat) : str :=
  join [NL]
       (rev (dropwhile is_blank_line
                       (rev (dropwhile is_blank_line (slice lines start_line endline))))).

(** A message that names a cell by type and ordinal index, and a source
    line: ["<type> cell <index> at line <line>..."]. *)
Definition names_cell_and_line (msg : str) : Prop :=
  exists (cell_type : str) (cell_index line : nat) (rest : str),
    msg = cell_type ++ u " cell " ++ dec cell_index ++ u " at line " ++ dec line ++ rest.

(** No character of a string is whitespace at its end. *)
Definition no_trailing_space (s : str) : Prop :=
  forall s' c, s = s' ++ [c] -> is_space c = false.

(** What the source of a Markdown cell looks like. *)
Definition trimmed_source (s : str) : Prop :=
  s <> [] /\ startswith s [NL] = false /\ no_trailing_space s.

(** Every Markdown cell of a list has such a source. *)
Definition markdown_sources_trimmed (cells : list Cell) : Prop :=
  Forall (fun c => cell_kind c = markdown -> trimmed_source (source c)) cells.

(** The end line of a flush: the start line of the token that ends the
    markdown run, or the end of the document. *)
Definition endline_of (lines : list str) (token : option Token.t) : nat :=
  match token with
  | Some t => fst (Token.map t)
  | None => List.length lines
  end.

(** [md_source] in [_flush_markdown], for a range of lines. *)
Definition md_source (lines : list str) (start_line endline : nat) : str :=
  strip_blank_lines (join [NL] (slice lines start_line endline)).

Definition flush_source (lines : list str) (start_line : nat)
           (token : option Token.t) : str :=
  md_source lines start_line (endline_of lines token).

(** The Markdown cell a flush creates after [created] other cells. *)
Definition markdown_cell {C : Collaborators} (cfg : Config) (lines : list str)
           (created start_line endline : nat) (md_metadata : dict) : Cell :=
  new_cell markdown (random_cell_id created)
           (md_source lines start_line endline)
           (markdown_metadata cfg start_line endline md_metadata).

(** The flush a boundary token triggers. *)
Definition flushed {C : Collaborators} (cfg : Config) (lines : list str)
           (st : State) (token : Token.t) : result (list Cell) :=
  _flush_markdown cfg lines (md_start_line st) (Some token)
                  (md_metadata st) (notebook_cells st).

(** The cells of the notebook, from a state of the scan and the tokens
    left: the rest of the loop, and the last flush. *)
Definition cells_from {C : Collaborators} (cfg : Config) (lines : list str)
           (st : State) (tokens : list Token.t) : result (list Cell) :=
  st' <- scan cfg lines st tokens ;;
  _flush_markdown cfg lines (md_start_line st') None (md_metadata st')
                  (notebook_cells st').


(** The messages of the [MystMetadataParsingError]s of a conversion, each
    with its cause: the front-matter YAML, or, at a token met at top level
    after the tokens before it were scanned and the markdown before it
    was flushed, the options of a code fence, the options of a raw fence,
    the JSON of a document break that does not parse, or the JSON of a
    document break that is not an object. *)
Definition metadata_error_shape {C : Collaborators} (cfg : Config)
           (text msg : str) : Prop :=
  let tokens := parse (text ++ [NL]) in
  let lines := splitlines text in
  (exists first rest cls error,
      tokens = first :: rest
      /\ str_eqb (Token.type first) (u "front_matter") = true
      /\ yaml_safe_load (Token.content first) = YamlError cls error
      /\ (cls = ParserError \/ cls = ScannerError)
      /\ msg = u "Notebook metadata: " ++ error)
  \/ (exists pre token post st cells,
         scanned_tokens tokens = pre ++ token :: post
         /\ scan cfg lines (initial_state tokens) pre = Return st
         /\ (nesting_level st + Token.nesting token = 0)%Z
         /\ flushed cfg lines st token = Return cells
         /\ let cell_index := List.length cells in
            let line := fst (Token.map token) + 1 in
            (is_code_fence cfg token = true
             /\ exists err,
                 parse_directive_text (Token.content token) = DirectiveParsingError err
                 /\ msg = u "Code" ++ u " cell " ++ dec cell_index ++ u " at line "
                          ++ dec line ++ u " could not be read: " ++ err)
            \/ (is_code_fence cfg token = false
                /\ is_raw_fence cfg token = true
                /\ exists err,
                    parse_directive_text (Token.content token)
                    = DirectiveParsingError err
                    /\ msg = u "Raw" ++ u " cell " ++ dec cell_index ++ u " at line "
                             ++ dec line ++ u " could not be read: " ++ err)
            \/ (is_break token = true
                /\ Token.content token <> []
                /\ exists err,
                    json_loads (strip (Token.content token)) = inl err
                    /\ msg = u "Markdown cell " ++ dec cell_index ++ u " at line "
                             ++ dec line ++ u " could not be read: " ++ err)
            \/ (is_break token = true
                /\ Token.content token <> []
                /\ (exists v,
                       json_loads (strip (Token.content token)) = inr v
                       /\ forall d, v <> PDict d)
                /\ msg = u "Markdown cell " ++ dec cell_index ++ u " at line "
                         ++ dec line ++ u " is not a dict")).

(** The text has no line boundary but the newline character. *)
Definition only_newline_breaks (text : str) : Prop :=
  forall c, In c text -> is_linebreak c = true -> c = NL.

(** Type and source of each cell: a cell list without its metadata. *)
Definition cell_shapes (cells : list Cell) : list (cell_type * str) :=
  List.map (fun c => (cell_kind c, source c)) cells.

(** The same configuration with another line-tracking flag. *)
Definition with_line_numbers (cfg : Config) (flag : bool) : Config :=
  {| code_directive := code_directive cfg;
     raw_directive := raw_directive cfg;
     store_line_numbers := flag |}.

(** Two runs that end alike up to cell metadata. *)
Definition same_up_to_metadata (r1 r2 : result Notebook) : Prop :=
  match r1, r2 with
  | Return nb1, Return nb2 =>
      nb_metadata nb1 = nb_metadata nb2
      /\ cell_shapes (cells nb1) = cell_shapes (cells nb2)
  | Raise e1, Raise e2 => e1 = e2
  | _, _ => False
  end.

(** The cell carries a line range under the key [_source_lines]. *)
Definition has_source_lines (c : Cell) : Prop :=
  exists a b, dict_lookup (metadata c) (u "_source_lines") = Some (source_lines a b).

(** The second cell is the first with a line range set under
    [_source_lines]. *)
Definition adds_source_lines (c c' : Cell) : Prop :=
  cell_kind c' = cell_kind c
  /\ cell_id c' = cell_id c
  /\ source c' = source c
  /\ exists a b,
      metadata c' = dict_set (metadata c) (u "_source_lines") (source_lines a b).

(** Two cells alike but for the id nbformat drew for them. *)
Definition same_cell_up_to_id (c c' : Cell) : Prop :=
  cell_kind c = cell_kind c'
  /\ source c = source c'
  /\ metadata c = metadata c'.

(** Two runs that end alike up to the ids of the cells. *)
Definition same_up_to_ids (r1 r2 : result Notebook) : Prop :=
  match r1, r2 with
  | Return nb1, Return nb2 =>
      nb_metadata nb1 = nb_metadata nb2
      /\ Forall2 same_cell_up_to_id (cells nb1) (cells nb2)
  | Raise e1, Raise e2 => e1 = e2
  | _, _ => False
  end.

(** Two runs meet the same libraries, but for the ids nbformat draws. *)
Definition same_libraries_up_to_ids (C1 C2 : Collaborators) : Prop :=
  (forall text, @parse C1 text = @parse C2 text)
  /\ (forall text, @yaml_safe_load C1 text = @yaml_safe_load C2 text)
  /\ (forall text, @json_loads C1 text = @json_loads C2 text)
  /\ (forall text, @parse_directive_text C1 text = @parse_directive_text C2 text)
  /\ (forall kind d, @validate_cell C1 kind d = @validate_cell C2 kind d)
  /\ (forall v, @validate_notebook C1 v = @validate_notebook C2 v).

(** Two runs of the scan, side by side: their results are related when
    both return related values, or both raise the same exception. *)
Definition related_results {A : Type} (R : A -> A -> Prop) (r1 r2 : result A) : Prop :=
  match r1, r2 with
  | Return a1, Return a2 => R a1 a2
  | Raise e1, Raise e2 => e1 = e2
  | _, _ => False
  end.

(** Two states alike but for their cells, which are related. *)
Definition related_states (RL : list Cell -> list Cell -> Prop) (st1 st2 : State)
  : Prop :=
  nesting_level st1 = nesting_level st2
  /\ md_metadata st1 = md_metadata st2
  /\ md_start_line st1 = md_start_line st2
  /\ RL (notebook_cells st1) (notebook_cells st2).



(** ** Sample documents

    Concrete documents, with what the libraries return on them: the token
    streams of the markdown-it parser, and the results of PyYAML, [json]
    and [parse_directive_text] on the blocks these documents hold.  The
    tables below record those results; the libraries are not consulted on
    any other input by the examples that use them.  Of nbformat's schema
    the samples know two rules: the tags of a cell are not a string, and
    the metadata of a notebook is not [None]; the messages are worded as
    nbformat words them with the jsonschema validator. *)

Module Samples.

Definition DQ : char := 34%N.
(** [q "a"] is the text of [a] between double quotes. *)
Definition q (s : string) : str := [DQ] ++ u s ++ [DQ].
Arguments q s%_string.

Definition tok (type : string) (nesting : Z) (content : str) (map : nat * nat)
  : Token.t := Token.make (u type) nesting [] content map.
Arguments tok type%_string nesting%_Z content map.

Definition fence (info : string) (content : str) (map : nat * nat) : Token.t :=
  Token.make (u "fence") 0 (u info) content map.
Arguments fence info%_string content map.

(** The span of a closing token is never read. *)
Definition no_map : nat * nat := (0, 0).

Definition paragraph (text : string) (line : nat) : list Token.t :=
  [ tok "paragraph_open" 1 [] (line, line + 1);
    tok "inline" 0 (u text) (line, line + 1);
    tok "paragraph_close" (-1) [] no_map ].
Arguments paragraph text%_string line.

(** A paragraph indented by one space. *)
Definition indented_text : str := u " hello".
Definition indented_tokens : list Token.t := paragraph "hello" 0.

(** A directive fence inside a list item, then one at top level. *)
Definition nested_lines : list str :=
  [ u "- item"; u "";
    u "  ```{code-cell}"; u "  x = 1"; u "  ```"; u "";
    u "```{code-cell}"; u "print(1)"; u "```" ].
Definition nested_text : str := join [NL] nested_lines.
Definition nested_fence : Token.t := fence "{code-cell}" (u "x = 1" ++ [NL]) (2, 5).
Definition top_fence : Token.t := fence "{code-cell}" (u "print(1)" ++ [NL]) (6, 9).
Definition nested_tokens : list Token.t :=
  [ tok "bullet_list_open" 1 [] (0, 6);
    tok "list_item_open" 1 [] (0, 6) ]
  ++ paragraph "item" 0
  ++ [ nested_fence;
       tok "list_item_close" (-1) [] no_map;
       tok "bullet_list_close" (-1) [] no_map;
       top_fence ].

(** Two document breaks, each with metadata. *)
Definition json_a : str := u "{" ++ q "a" ++ u ": 1}".
Definition json_b : str := u "{" ++ q "b" ++ u ": 2}".
Definition breaks_lines : list str :=
  [ u "+++ " ++ json_a; u ""; u "one"; u "";
    u "+++ " ++ json_b; u ""; u "two" ].
Definition breaks_text : str := join [NL] breaks_lines.
Definition break_a : Token.t := tok "myst_block_break" 0 json_a (0, 1).
Definition break_b : Token.t := tok "myst_block_break" 0 json_b (4, 5).
Definition breaks_tokens : list Token.t :=
  [ break_a ] ++ paragraph "one" 2 ++ [ break_b ] ++ paragraph "two" 6.

(** A document break whose metadata ends in a trailing comma. *)
Definition json_trailing_comma : str :=
  u "{" ++ q "tags" ++ u ": [" ++ q "hide" ++ u "],}".
Definition json_trailing_comma_error : str :=
  u "Expecting property name enclosed in double quotes: line 1 column 19 (char 18)".
Definition bad_break_lines : list str :=
  [ u "intro"; u ""; u "+++ " ++ json_trailing_comma; u ""; u "more" ].
Definition bad_break_text : str := join [NL] bad_break_lines.
Definition bad_break : Token.t := tok "myst_block_break" 0 json_trailing_comma (2, 3).
Definition bad_break_tokens : list Token.t :=
  paragraph "intro" 0 ++ [ bad_break ] ++ paragraph "more" 4.

(** Front matter with the dialect tag and no kernelspec. *)
Definition tagged_yaml_lines : list str :=
  [ u "jupytext:"; u "  text_representation:"; u "    format_name: myst" ].
Definition tagged_text : str :=
  join [NL] ([ u "---" ] ++ tagged_yaml_lines ++ [ u "---"; u ""; u "hello" ]).
Definition tagged_front_matter : pyval :=
  PDict [ (u "jupytext",
           PDict [ (u "text_representation",
                    PDict [ (u "format_name", PStr (u "myst")) ]) ]) ].

(** Front matter that is not YAML: an unclosed flow sequence. *)
Definition bad_yaml : str := u "jupytext: [".
Definition bad_yaml_error : str :=
  join [NL]
       [ u "while parsing a flow node";
         u "expected the node content, but found '<stream end>'";
         u "  in " ++ q "<unicode string>" ++ u ", line 1, column 12:";
         u "    jupytext: [";
         u "               ^" ].
Definition bad_yaml_lines : list str :=
  [ u "---"; bad_yaml; u "---"; u ""; u "hello" ].
Definition bad_yaml_text : str := join [NL] bad_yaml_lines.
Definition bad_yaml_tokens : list Token.t :=
  [ tok "front_matter" 0 bad_yaml (0, 3) ] ++ paragraph "hello" 4.

(** A code cell whose option block is not YAML. *)
Definition bad_options : str := u ":tags: [a" ++ [NL] ++ u "x = 1" ++ [NL].
Definition bad_options_error : str :=
  u "Invalid options YAML: "
  ++ join [NL]
       [ u "while parsing a flow sequence";
         u "  in " ++ q "<unicode string>" ++ u ", line 1, column 7:";
         u "    tags: [a";
         u "          ^";
         u "expected ',' or ']', but got '<stream end>'";
         u "  in " ++ q "<unicode string>" ++ u ", line 1, column 9:";
         u "    tags: [a";
         u "            ^" ].
Definition bad_fence_lines : list str :=
  [ u "intro"; u ""; u "```{code-cell}"; u ":tags: [a"; u "x = 1"; u "```" ].
Definition bad_fence_text : str := join [NL] bad_fence_lines.
Definition bad_fence : Token.t := fence "{code-cell}" bad_options (2, 6).
Definition bad_fence_tokens : list Token.t :=
  paragraph "intro" 0 ++ [ bad_fence ].

(** A document break whose metadata breaks the notebook schema (the
    tags of a cell are a list, not a string), some text, and a second
    break, with the trailing comma. *)
Definition json_tags_x : str := u "{" ++ q "tags" ++ u ": " ++ q "x" ++ u "}".
Definition tagged_break_lines : list str :=
  [ u "+++ " ++ json_tags_x; u ""; u "hello"; u "";
    u "+++ " ++ json_trailing_comma ].
Definition tagged_break_text : str := join [NL] tagged_break_lines.
Definition tagged_break : Token.t := tok "myst_block_break" 0 json_tags_x (0, 1).
Definition late_break : Token.t := tok "myst_block_break" 0 json_trailing_comma (4, 5).
Definition tagged_break_tokens : list Token.t :=
  [ tagged_break ] ++ paragraph "hello" 2 ++ [ late_break ].

Definition sample_parse (text : str) : list Token.t :=
  if str_eqb text (indented_text ++ [NL]) then indented_tokens
  else if str_eqb text (nested_text ++ [NL]) then nested_tokens
  else if str_eqb text (breaks_text ++ [NL]) then breaks_tokens
  else if str_eqb text (bad_break_text ++ [NL]) then bad_break_tokens
  else if str_eqb text (bad_yaml_text ++ [NL]) then bad_yaml_tokens
  else if str_eqb text (bad_fence_text ++ [NL]) then bad_fence_tokens
  else if str_eqb text (tagged_break_text ++ [NL]) then tagged_break_tokens
  else [].

Definition sample_yaml_safe_load (text : str) : yaml_outcome :=
  if str_eqb text bad_yaml then YamlError ParserError bad_yaml_error
  else if str_eqb text (join [NL] tagged_yaml_lines) then YamlValue tagged_front_matter
  else YamlValue PNone.

Definition sample_json_loads (text : str) : str + pyval :=
  if str_eqb text json_a then inr (PDict [ (u "a", PInt 1) ])
  else if str_eqb text json_b then inr (PDict [ (u "b", PInt 2) ])
  else if str_eqb text json_tags_x then inr (PDict [ (u "tags", PStr (u "x")) ])
  else if str_eqb text json_trailing_comma then inl json_trailing_comma_error
  else inl (u "Expecting value: line 1 column 1 (char 0)").

Definition sample_parse_directive_text (content : str) : directive_outcome :=
  if str_eqb content bad_options then DirectiveParsingError bad_options_error
  else DirectiveParsed [] (splitlines content).

(** nbformat's validation, for the two rules. *)
Definition schema_ref (kind : cell_type) : str :=
  match kind with
  | markdown => u "markdown_cell"
  | code => u "code_cell"
  | raw => u "raw_cell"
  end.

Definition tags_message (kind : cell_type) (s : str) : str :=
  join [NL]
       [ u "'" ++ s ++ u "' is not of type 'array'";
         u "";
         u "Failed validating 'type' in " ++ schema_ref kind
           ++ u "['properties']['metadata']['properties']['tags']:";
         u "";
         u "On instance['metadata']['tags']:";
         u "'" ++ s ++ u "'" ].

Definition sample_validate_cell (kind : cell_type) (d : dict) : option str :=
  match dict_lookup d (u "tags") with
  | Some (PStr s) => Some (tags_message kind s)
  | _ => None
  end.

Definition none_metadata_message : str :=
  join [NL]
       [ u "None is not of type 'object'";
         u "";
         u "Failed validating 'type' in notebook['properties']['metadata']:";
         u "";
         u "On instance['metadata']:";
         u "None" ].

Definition sample_validate_notebook (v : pyval) : option str :=
  match v with
  | PNone => Some none_metadata_message
  | _ => None
  end.

(** The sample schema does not look at [_source_lines]. *)
Definition sample_validate_cell_source_lines (kind : cell_type) (d : dict) (v : pyval) :
  sample_validate_cell kind (dict_set d (u "_source_lines") v)
  = sample_validate_cell kind d.
Proof.
  assert (Hkey : forall k, str_eqb k (u "_source_lines") = true ->
                           str_eqb k (u "tags") = false).
  { intros [|c k] H; [discriminate|]. cbn in H.
    apply andb_true_iff in H as [H _]. apply N.eqb_eq in H. subst c. reflexivity. }
  unfold sample_validate_cell.
  replace (dict_lookup (dict_set d (u "_source_lines") v) (u "tags"))
    with (dict_lookup d (u "tags")); [reflexivity|].
  induction d as [|[k x] d IH]; [reflexivity|].
  cbn [dict_set]. destruct (str_eqb k (u "_source_lines")) eqn:E.
  - cbn [dict_lookup]. rewrite (Hkey _ E). reflexivity.
  - cbn [dict_lookup]. destruct (str_eqb k (u "tags")); [reflexivity | exact IH].
Defined.

(** The libraries of one run: a tokenizer and a YAML parser given by
    their tables, and the ids nbformat draws in the run. *)
Definition make_libraries (parse : str -> list Token.t)
           (yaml_safe_load : str -> yaml_outcome) (ids : nat -> option str)
  : Collaborators :=
  {| parse := parse;
     yaml_safe_load := yaml_safe_load;
     json_loads := sample_json_loads;
     parse_directive_text := sample_parse_directive_text;
     validate_cell := sample_validate_cell;
     validate_notebook := sample_validate_notebook;
     random_cell_id := ids;
     validate_cell_empty := fun _ => eq_refl;
     validate_cell_source_lines := sample_validate_cell_source_lines;
     validate_notebook_empty := eq_refl |}.

Definition libraries_of (ids : nat -> option str) : Collaborators :=
  make_libraries sample_parse sample_yaml_safe_load ids.

(** With nbformat 5.0, which the converter was written for, a cell has no
    id. *)
Definition no_ids : nat -> option str := fun _ => None.
Definition libraries : Collaborators := libraries_of no_ids.

(** With nbformat 5.1 and later, each run draws its own ids. *)
Definition first_run_ids (k : nat) : option str :=
  match k with
  | 0 => Some (u "3f2a9c1e")
  | _ => Some (u "b07d44a2")
  end.
Definition second_run_ids (k : nat) : option str :=
  match k with
  | 0 => Some (u "9e1c5d70")
  | _ => Some (u "4ab8f316")
  end.

(** States and results of the scans of these documents. *)
Definition start : State :=
  {| nesting_level := 0; md_metadata := [];
     md_start_line := 0; notebook_cells := [] |}.

(** When the scan meets [nested_fence], two blocks are open. *)
Definition inside_item : State :=
  {| nesting_level := 2; md_metadata := [];
     md_start_line := 0; notebook_cells := [] |}.

Definition nested_cells (ids : nat -> option str) : list Cell :=
  [ new_cell markdown (ids 0) (join [NL] (firstn 5 nested_lines)) [];
    new_cell code (ids 1) (u "print(1)") [] ].

Definition nested_notebook : Notebook :=
  new_notebook (PDict []) (nested_cells no_ids).



Definition indented_notebook : Notebook :=
  new_notebook (PDict []) [ new_cell markdown None (u " hello") [] ].

Definition bad_break_message : str :=
  u "Markdown cell 1 at line 3 could not be read: " ++ json_trailing_comma_error.

Definition bad_fence_message : str :=
  u "Code cell 1 at line 3 could not be read: " ++ bad_options_error.

Definition missing_name_message : str :=
  u "A myst notebook text-representation requires kernelspec/name metadata".

(** The state in which the scan meets [late_break]. *)
Definition before_late_break : State :=
  {| nesting_level := 0; md_metadata := [ (u "tags", PStr (u "x")) ];
     md_start_line := 1; notebook_cells := [] |}.

(** A run of markdown that opens with a line of one space. *)
Definition spaced_lines : list str := [ u " "; u "hello" ].

End Samples.

(** More sample documents. *)
Module MoreSamples.

(** A host whose paths keep their extension after the last dot. *)
Definition notes_path : str := u "docs/notes.md".
Definition sample_splitext (path : str) : str * str :=
  if str_eqb path notes_path then (u "docs/notes", u ".md") else (path, []).
Definition plain_text : str := u " hello".
Definition host : Host :=
  {| splitext := sample_splitext;
     nbf_reads := fun _ => inl (u "Notebook does not appear to be JSON");
     nbf_read := fun _ => inl (u "No such file or directory");
     read_text := fun path =>
                    if str_eqb path notes_path then inr plain_text
                    else inl (u "No such file or directory") |}.
Definition env : Env := {| docname := u "docs/notes"; doc2path := fun d => d ++ u ".md" |}.

(** Front matter whose kernelspec entry is a string. *)
Definition string_kernelspec_lines : list str :=
  [ u "jupytext:"; u "  text_representation:"; u "    format_name: myst";
    u "kernelspec: the display_name" ].
Definition string_kernelspec_text : str :=
  join [NL] ([ u "---" ] ++ string_kernelspec_lines ++ [ u "---" ]).
Definition string_kernelspec_front_matter : dict :=
  [ (u "jupytext",
     PDict [ (u "text_representation",
              PDict [ (u "format_name", PStr (u "myst")) ]) ]);
    (u "kernelspec", PStr (u "the display_name")) ].

(** Empty front matter: YAML reads it as [None]. *)
Definition empty_front_matter_text : str := join [NL] [ u "---"; u "---"; u "text" ].

Definition more_yaml_safe_load (text : str) : yaml_outcome :=
  if str_eqb text (join [NL] string_kernelspec_lines)
  then YamlValue (PDict string_kernelspec_front_matter)
  else Samples.sample_yaml_safe_load text.

(** A notebook: front matter with the dialect tag and a kernelspec, and
    a paragraph. *)
Definition notebook_yaml_lines : list str :=
  [ u "jupytext:"; u "  text_representation:"; u "    format_name: myst";
    u "kernelspec:"; u "  name: python3"; u "  display_name: Python 3" ].
Definition notebook_yaml : str := join [NL] notebook_yaml_lines.
Definition notebook_lines : list str :=
  [ u "---" ] ++ notebook_yaml_lines ++ [ u "---"; u ""; u "hello" ].
Definition notebook_text : str := join [NL] notebook_lines.
Definition notebook_front_matter : dict :=
  [ (u "jupytext",
     PDict [ (u "text_representation",
              PDict [ (u "format_name", PStr (u "myst")) ]) ]);
    (u "kernelspec",
     PDict [ (u "name", PStr (u "python3"));
             (u "display_name", PStr (u "Python 3")) ]) ].
Definition notebook_tokens : list Token.t :=
  [ Samples.tok "front_matter" 0 notebook_yaml (0, 8) ] ++ Samples.paragraph "hello" 9.
Definition notebook_result : Notebook :=
  new_notebook (PDict notebook_front_matter) [ new_cell markdown None (u "hello") [] ].

Definition notebook_yaml_safe_load (text : str) : yaml_outcome :=
  if str_eqb text notebook_yaml then YamlValue (PDict notebook_front_matter)
  else more_yaml_safe_load text.

(** The tokens of the text with the empty front matter. *)
Definition empty_front_matter_tokens : list Token.t :=
  [ Samples.tok "front_matter" 0 [] (0, 2) ] ++ Samples.paragraph "text" 2.

Definition more_parse (text : str) : list Token.t :=
  if str_eqb text (notebook_text ++ [NL]) then notebook_tokens
  else if str_eqb text (empty_front_matter_text ++ [NL]) then empty_front_matter_tokens
  else Samples.sample_parse text.

Definition libraries : Collaborators :=
  Samples.make_libraries more_parse notebook_yaml_safe_load Samples.no_ids.

Definition tracking : Config := with_line_numbers default_config true.

(** A text with two lines and a newline at its end. *)
Definition two_lines : str := u "one" ++ [NL] ++ u "two" ++ [NL].

End MoreSamples.

(** * Properties *)

(** ** Strings *)

Lemma str_eqb_refl (a : str) : str_eqb a a = true.
Proof.
  induction a as [|c a IH]; simpl; [reflexivity|].
  now rewrite N.eqb_refl, IH.
Qed.

Lemma str_eqb_eq (a b : str) : str_eqb a b = true <-> a = b.
Proof.
  split.
  - revert b; induction a as [|x a IH]; intros [|y b] H; simpl in H;
      try discriminate; [reflexivity|].
    apply andb_true_iff in H as [Hx Hab].
    apply N.eqb_eq in Hx. apply IH in Hab. now subst.
  - intros ->. apply str_eqb_refl.
Qed.

Lemma startswith_iff (s prefix : str) :
  startswith s prefix = true <-> exists rest, s = prefix ++ rest.
Proof.
  revert s; induction prefix as [|p prefix IH]; intros s; simpl.
  - split; [intros _; now exists s | reflexivity].
  - destruct s as [|c s].
    + split; [discriminate | intros [rest H]; discriminate].
    + rewrite andb_true_iff, N.eqb_eq, IH. split.
      * intros [-> [rest ->]]. now exists rest.
      * intros [rest H]. injection H as -> ->. split; [reflexivity | now exists rest].
Qed.

Lemma str_contains_app (a needle b : str) :
  str_contains (a ++ needle ++ b) needle = true.
Proof.
  induction a as [|c a IH]; simpl.
  - assert (H : startswith (needle ++ b) needle = true)
      by (apply startswith_iff; now exists b).
    destruct (needle ++ b); simpl; rewrite H; reflexivity.
  - rewrite IH. apply orb_true_r.
Qed.

Lemma dropwhile_split {A : Type} (p : A -> bool) (s : list A) :
  exists w, s = w ++ dropwhile p s /\ forallb p w = true.
Proof.
  induction s as [|c s [w [Hs Hw]]]; simpl.
  - now exists [].
  - destruct (p c) eqn:Hc.
    + exists (c :: w). simpl. rewrite Hc, Hw. split; [now f_equal | reflexivity].
    + now exists [].
Qed.

Lemma dropwhile_head {A : Type} (p : A -> bool) (s : list A) (c : A) (r : list A) :
  dropwhile p s = c :: r -> p c = false.
Proof.
  induction s as [|d s IH]; simpl; [discriminate|].
  destruct (p d) eqn:Hd; [exact IH|].
  intros H. injection H as -> _. exact Hd.
Qed.

Lemma dropwhile_all {A : Type} (p : A -> bool) (w s : list A) :
  forallb p w = true -> dropwhile p (w ++ s) = dropwhile p s.
Proof.
  induction w as [|c w IH]; simpl; [reflexivity|].
  intros H. apply andb_true_iff in H as [Hc Hw]. rewrite Hc. now apply IH.
Qed.

(** [rstrip] removes a suffix made of whitespace only. *)
Lemma rstrip_split (s : str) :
  exists w, s = rstrip s ++ w /\ forallb is_space w = true.
Proof.
  unfold rstrip.
  destruct (dropwhile_split is_space (rev s)) as [w [Hs Hw]].
  exists (rev w). split.
  - rewrite <- rev_app_distr, <- Hs. symmetry. apply rev_involutive.
  - rewrite forallb_forall in *. intros x Hx. apply Hw. now apply in_rev.
Qed.

(** and nothing is left of it: the result does not end in whitespace. *)
Lemma rstrip_no_trailing_space (s : str) : no_trailing_space (rstrip s).
Proof.
  unfold no_trailing_space, rstrip. intros s' c H.
  apply (f_equal (@rev char)) in H.
  rewrite rev_involutive, rev_app_distr in H. simpl in H.
  now apply dropwhile_head in H.
Qed.

Lemma rstrip_app_space (s w : str) :
  forallb is_space w = true -> rstrip (s ++ w) = rstrip s.
Proof.
  intros Hw. unfold rstrip. rewrite rev_app_distr.
  rewrite dropwhile_all; [reflexivity|].
  rewrite forallb_forall in *. intros x Hx. apply Hw. now apply in_rev.
Qed.

Lemma dropwhile_app_nonempty {A : Type} (p : A -> bool) (x y : list A) :
  dropwhile p x <> [] -> dropwhile p (x ++ y) = dropwhile p x ++ y.
Proof.
  induction x as [|c x IH]; simpl; [contradiction|].
  destruct (p c); [exact IH | reflexivity].
Qed.

(** Text before a part that does not strip to nothing is out of reach. *)
Lemma rstrip_app_nonempty (a b : str) :
  rstrip b <> [] -> rstrip (a ++ b) = a ++ rstrip b.
Proof.
  unfold rstrip. intros H. rewrite rev_app_distr.
  rewrite dropwhile_app_nonempty.
  - rewrite rev_app_distr. now rewrite rev_involutive.
  - intros E. apply H. now rewrite E.
Qed.

Lemma drop_leading_newlines_split (text : str) :
  exists n, text = repeat NL n ++ drop_leading_newlines text.
Proof.
  induction text as [|c text [n IH]]; simpl.
  - now exists 0.
  - destruct (N.eqb c NL) eqn:Hc.
    + apply N.eqb_eq in Hc. subst c. exists (S n). simpl. now f_equal.
    + now exists 0.
Qed.

Lemma drop_leading_newlines_head (text : str) :
  startswith (drop_leading_newlines text) [NL] = false.
Proof.
  induction text as [|c text IH]; simpl; [reflexivity|].
  destruct (N.eqb c NL) eqn:Hc; [exact IH|].
  simpl. rewrite Hc. reflexivity.
Qed.

Lemma no_trailing_space_suffix (a b : str) :
  no_trailing_space (a ++ b) -> no_trailing_space b.
Proof.
  unfold no_trailing_space. intros H s' c Hb.
  apply (H (a ++ s') c). rewrite Hb. apply app_assoc.
Qed.

(** ** [strip_blank_lines] *)

(** The text is the result between a run of newlines and a run of
    whitespace. *)
Lemma strip_blank_lines_split (text : str) :
  exists n w,
    text = repeat NL n ++ strip_blank_lines text ++ w
    /\ forallb is_space w = true.
Proof.
  unfold strip_blank_lines.
  destruct (rstrip_split text) as [w [Ht Hw]].
  destruct (drop_leading_newlines_split (rstrip text)) as [n Hn].
  exists n, w. split; [|exact Hw].
  rewrite app_assoc, <- Hn. exact Ht.
Qed.

Lemma strip_blank_lines_head (text : str) :
  startswith (strip_blank_lines text) [NL] = false.
Proof. apply drop_leading_newlines_head. Qed.

Lemma strip_blank_lines_no_trailing_space (text : str) :
  no_trailing_space (strip_blank_lines text).
Proof.
  unfold strip_blank_lines.
  destruct (drop_leading_newlines_split (rstrip text)) as [n Hn].
  apply no_trailing_space_suffix with (a := repeat NL n).
  rewrite <- Hn. apply rstrip_no_trailing_space.
Qed.

Lemma strip_blank_lines_app_space (text w : str) :
  forallb is_space w = true ->
  strip_blank_lines (text ++ w) = strip_blank_lines text.
Proof. intros H. unfold strip_blank_lines. now rewrite rstrip_app_space. Qed.

(** A first character other than a newline stays where it is. *)
Lemma strip_blank_lines_keeps_head (c : char) (text : str) :
  N.eqb c NL = false ->
  strip_blank_lines (c :: text) = rstrip (c :: text).
Proof.
  intros Hc. unfold strip_blank_lines.
  destruct (rstrip_split (c :: text)) as [w [Ht _]].
  destruct (rstrip (c :: text)) as [|d r] eqn:Hr; [reflexivity|].
  simpl in Ht. injection Ht as <- _. simpl. now rewrite Hc.
Qed.

Lemma rstrip_fixed (s : str) : no_trailing_space s -> rstrip s = s.
Proof.
  intros H. unfold rstrip.
  destruct (rev s) as [|c r] eqn:E.
  - apply (f_equal (@rev char)) in E. now rewrite rev_involutive in E.
  - assert (Hs : s = rev r ++ [c]).
    { apply (f_equal (@rev char)) in E. now rewrite rev_involutive in E. }
    simpl. rewrite (H _ _ Hs). now rewrite Hs.
Qed.

Lemma drop_leading_newlines_fixed (s : str) :
  startswith s [NL] = false -> drop_leading_newlines s = s.
Proof.
  destruct s as [|c s]; simpl; [reflexivity|].
  rewrite andb_true_r. now intros ->.
Qed.

Lemma forallb_rev {A : Type} (p : A -> bool) (l : list A) :
  forallb p l = true -> forallb p (rev l) = true.
Proof.
  rewrite !forallb_forall. intros H x Hx. apply H. now apply in_rev.
Qed.

Lemma forallb_repeat_NL (n : nat) : forallb is_space (repeat NL n) = true.
Proof. induction n as [|n IH]; simpl; [reflexivity | exact IH]. Qed.

Lemma rstrip_blank (s : str) : forallb is_space s = true -> rstrip s = [].
Proof.
  intros H. unfold rstrip. apply forallb_rev in H.
  rewrite <- (app_nil_r (rev s)). now rewrite (dropwhile_all _ _ [] H).
Qed.

Lemma join_cons (sep p : str) (rest : list str) :
  rest <> [] -> join sep (p :: rest) = p ++ sep ++ join sep rest.
Proof. destruct rest; [contradiction | reflexivity]. Qed.

Lemma only_newline_breaks_tail c text :
  only_newline_breaks (c :: text) -> only_newline_breaks text.
Proof. intros H d Hd. apply H. now right. Qed.

Lemma splitlines_from_nonempty cur c text :
  splitlines_from cur (c :: text) <> [].
Proof.
  simpl. destruct (N.eqb c CR).
  - destruct text as [|d text]; [discriminate|].
    destruct (N.eqb d NL); discriminate.
  - destruct (is_linebreak c); [discriminate|].
    revert cur c. induction text as [|d text IH]; intros cur c; simpl.
    + discriminate.
    + destruct (N.eqb d CR).
      * destruct text as [|e text]; [discriminate|].
        destruct (N.eqb e NL); discriminate.
      * destruct (is_linebreak d); [discriminate | apply IH].
Qed.

(** Joining the lines gives the text back, up to one newline at its end. *)
Lemma join_splitlines_from text : forall cur,
  only_newline_breaks text ->
  exists w,
    rev cur ++ text = join [NL] (splitlines_from cur text) ++ w
    /\ (w = [] \/ w = [NL]).
Proof.
  induction text as [|c text IH]; intros cur H.
  - exists []. split; [|now left]. simpl. destruct cur; [reflexivity|].
    simpl. now rewrite !app_nil_r.
  - pose proof (only_newline_breaks_tail H) as Ht.
    destruct (is_linebreak c) eqn:Hc.
    + assert (c = NL) by (apply H; [now left | exact Hc]). subst c.
      change (splitlines_from cur (NL :: text))
        with (rev cur :: splitlines_from [] text).
      destruct text as [|d text].
      * exists [NL]. split; [reflexivity | now right].
      * destruct (IH [] Ht) as (w & Hw & Hcases). exists w. split; [|exact Hcases].
        rewrite join_cons by apply splitlines_from_nonempty.
        change (rev [] ++ d :: text) with (d :: text) in Hw.
        rewrite <- !app_assoc, <- Hw. reflexivity.
    + assert (Hcr : N.eqb c CR = false).
      { destruct (N.eqb_spec c CR) as [->|]; [discriminate Hc | reflexivity]. }
      destruct (IH (c :: cur) Ht) as (w & Hw & Hcases). exists w.
      split; [|exact Hcases].
      simpl splitlines_from. rewrite Hcr, Hc. rewrite <- Hw. simpl.
      now rewrite <- app_assoc.
Qed.



Lemma slice_all {A : Type} (l : list A) : slice l 0 (List.length l) = l.
Proof. unfold slice. simpl. rewrite Nat.sub_0_r. apply firstn_all. Qed.

Lemma dict_lookup_set (d : dict) (k : str) (v : pyval) :
  dict_lookup (dict_set d k v) k = Some v.
Proof.
  induction d as [|[k' v'] d IH]; simpl.
  - now rewrite str_eqb_refl.
  - destruct (str_eqb k' k) eqn:E; simpl.
    + now rewrite str_eqb_refl.
    + now rewrite E.
Qed.

Lemma str_contains_iff (s needle : str) :
  str_contains s needle = true <-> exists a b, s = a ++ needle ++ b.
Proof.
  split.
  - induction s as [|c s IH]; simpl; intros H.
    + rewrite orb_false_r in H. apply startswith_iff in H as [rest Hr].
      now exists [], rest.
    + apply orb_true_iff in H as [H|H].
      * apply startswith_iff in H as [rest Hr]. now exists [], rest.
      * destruct (IH H) as (a & b & ->). now exists (c :: a), b.
  - intros (a & b & ->). apply str_contains_app.
Qed.

(** ** The markdown flush *)

Lemma forallb_is_space_join (parts : list str) :
  forallb is_space (join [NL] parts) = forallb (forallb is_space) parts.
Proof.
  induction parts as [|p rest IH]; [reflexivity|].
  destruct rest as [|p' rest].
  - simpl. now rewrite andb_true_r.
  - rewrite join_cons by discriminate.
    rewrite !forallb_app, IH. reflexivity.
Qed.

Lemma strip_blank_lines_empty_iff (text : str) :
  strip_blank_lines text = [] <-> forallb is_space text = true.
Proof.
  split.
  - intros E. destruct (strip_blank_lines_split text) as (n & w & Ht & Hw).
    rewrite E in Ht. rewrite Ht. simpl.
    rewrite forallb_app, forallb_repeat_NL. exact Hw.
  - intros H. unfold strip_blank_lines. now rewrite rstrip_blank.
Qed.

Section FlushFacts.

Context {C : Collaborators}.
Variable cfg : Config.
Variable lines : list str.

Lemma new_cell_of_valid kind created src meta :
  validate_cell kind meta = None ->
  new_cell_of kind created src meta
  = Return (new_cell kind (random_cell_id created) src meta).
Proof. unfold new_cell_of. now intros ->. Qed.

Lemma new_cell_of_invalid kind created src meta msg :
  validate_cell kind meta = Some msg ->
  new_cell_of kind created src meta = Raise (NotebookValidationError msg).
Proof. unfold new_cell_of. now intros ->. Qed.

Lemma validate_markdown_metadata kind start_line endline md :
  validate_cell kind (markdown_metadata cfg start_line endline md)
  = validate_cell kind md.
Proof.
  unfold markdown_metadata. destruct (store_line_numbers cfg); [|reflexivity].
  apply validate_cell_source_lines.
Qed.

Lemma validate_fenced_metadata kind token options :
  validate_cell kind (fenced_metadata cfg token options)
  = validate_cell kind options.
Proof.
  unfold fenced_metadata. destruct (store_line_numbers cfg); [|reflexivity].
  apply validate_cell_source_lines.
Qed.

(** The flush, by the source it finds. *)
Lemma flush_unfold start_line token md cells :
  _flush_markdown cfg lines start_line token md cells
  = match flush_source lines start_line token with
    | [] => Return cells
    | _ :: _ =>
        cell <- new_cell_of markdown (List.length cells)
                            (flush_source lines start_line token)
                            (markdown_metadata cfg start_line (endline_of lines token) md) ;;
        Return (cells ++ [cell])
    end.
Proof. reflexivity. Qed.

Lemma flush_empty start_line token md cells :
  flush_source lines start_line token = [] ->
  _flush_markdown cfg lines start_line token md cells = Return cells.
Proof. intros E. now rewrite flush_unfold, E. Qed.

Lemma flush_valid start_line token md cells :
  flush_source lines start_line token <> [] ->
  validate_cell markdown md = None ->
  _flush_markdown cfg lines start_line token md cells
  = Return (cells ++ [markdown_cell cfg lines (List.length cells) start_line
                                    (endline_of lines token) md]).
Proof.
  intros E Hv. rewrite flush_unfold.
  destruct (flush_source lines start_line token) eqn:Es; [contradiction|].
  rewrite new_cell_of_valid by now rewrite validate_markdown_metadata.
  cbn [bind]. unfold markdown_cell. fold (flush_source lines start_line token).
  now rewrite Es.
Qed.

Lemma flush_invalid start_line token md cells msg :
  flush_source lines start_line token <> [] ->
  validate_cell markdown md = Some msg ->
  _flush_markdown cfg lines start_line token md cells
  = Raise (NotebookValidationError msg).
Proof.
  intros E Hv. rewrite flush_unfold.
  destruct (flush_source lines start_line token) eqn:Es; [contradiction|].
  assert (Hv' : validate_cell markdown
                  (markdown_metadata cfg start_line (endline_of lines token) md)
                = Some msg) by now rewrite validate_markdown_metadata.
  unfold new_cell_of. now rewrite Hv'.
Qed.

(** A flush that returns has appended nothing, or one Markdown cell. *)
Lemma flush_return_inv start_line token md cells cells' :
  _flush_markdown cfg lines start_line token md cells = Return cells' ->
  flush_source lines start_line token = [] /\ cells' = cells
  \/ flush_source lines start_line token <> []
     /\ validate_cell markdown md = None
     /\ cells' = cells ++ [markdown_cell cfg lines (List.length cells) start_line
                                         (endline_of lines token) md].
Proof.
  intros H. destruct (flush_source lines start_line token) eqn:Es.
  - left. rewrite flush_empty in H by exact Es. now injection H as <-.
  - right. assert (Hne : flush_source lines start_line token <> [])
      by (rewrite Es; discriminate).
    rewrite <- Es. destruct (validate_cell markdown md) as [msg|] eqn:Hv.
    + rewrite (@flush_invalid start_line token md cells msg Hne Hv) in H. discriminate.
    + rewrite (@flush_valid start_line token md cells Hne Hv) in H. injection H as <-.
      now repeat split.
Qed.



(** A flush that returns keeps the cells it was given, in front. *)
Lemma flush_grows start_line token md cells cells' :
  _flush_markdown cfg lines start_line token md cells = Return cells' ->
  exists new, cells' = cells ++ new /\ List.length new <= 1.
Proof.
  intros H. apply flush_return_inv in H as [[_ ->]|(_ & _ & ->)].
  - exists []. split; [now rewrite app_nil_r | simpl; lia].
  - eexists. split; [reflexivity | simpl; lia].
Qed.

End FlushFacts.

(** ** One step of the scan *)

Section StepFacts.

Context {C : Collaborators}.
Variable cfg : Config.
Variable lines : list str.

Lemma step_nested st token :
  (nesting_level st + Token.nesting token <> 0)%Z ->
  step cfg lines st token
  = Return (with_level st (nesting_level st + Token.nesting token)).
Proof.
  intros H. unfold step.
  destruct (Z.eqb_spec (nesting_level st + Token.nesting token) 0);
    [contradiction|reflexivity].
Qed.

Lemma step_code st token :
  (nesting_level st + Token.nesting token = 0)%Z ->
  is_code_fence cfg token = true ->
  step cfg lines st token
  = fenced_cell cfg lines st 0 token (u "Code") (new_cell_of code).
Proof.
  intros H Hc. unfold step. rewrite H. simpl.
  unfold is_code_fence in Hc. now rewrite Hc.
Qed.

Lemma step_raw st token :
  (nesting_level st + Token.nesting token = 0)%Z ->
  is_code_fence cfg token = false ->
  is_raw_fence cfg token = true ->
  step cfg lines st token
  = fenced_cell cfg lines st 0 token (u "Raw") (new_cell_of raw).
Proof.
  intros H Hc Hr. unfold step. rewrite H. simpl.
  unfold is_code_fence in Hc. unfold is_raw_fence in Hr. now rewrite Hc, Hr.
Qed.

Lemma step_break st token :
  (nesting_level st + Token.nesting token = 0)%Z ->
  is_break token = true ->
  step cfg lines st token
  = (cells <- flushed cfg lines st token ;;
     metadata <- read_cell_metadata token (List.length cells) ;;
     Return {| nesting_level := 0;
               md_metadata := metadata;
               md_start_line := snd (Token.map token);
               notebook_cells := cells |}).
Proof.
  intros H Hb. unfold step. rewrite H. simpl.
  unfold is_break in Hb. rewrite Hb. apply str_eqb_eq in Hb. now rewrite Hb.
Qed.

Lemma step_other st token :
  (nesting_level st + Token.nesting token = 0)%Z ->
  is_boundary cfg token = false ->
  step cfg lines st token = Return (with_level st 0).
Proof.
  intros H Hb. unfold is_boundary in Hb.
  apply orb_false_iff in Hb as [Hb Hbr]. apply orb_false_iff in Hb as [Hc Hr].
  unfold step. rewrite H. simpl.
  unfold is_code_fence in Hc. unfold is_raw_fence in Hr. unfold is_break in Hbr.
  now rewrite Hc, Hr, Hbr.
Qed.


(** The fence branch, by what the flush, the option parser and nbformat
    do. *)
Lemma fenced_cell_unfold st level token cell_type kind :
  fenced_cell cfg lines st level token cell_type (new_cell_of kind)
  = (cells <- flushed cfg lines st token ;;
     match parse_directive_text (Token.content token) with
     | DirectiveParsed options body_lines =>
         cell <- new_cell_of kind (List.length cells) (join [NL] body_lines)
                             (fenced_metadata cfg token options) ;;
         Return {| nesting_level := level;
                   md_metadata := [];
                   md_start_line := snd (Token.map token);
                   notebook_cells := cells ++ [cell] |}
     | DirectiveParsingError err =>
         Raise (MystMetadataParsingError
                  (cell_type ++ u " cell " ++ dec (List.length cells)
                   ++ u " at line " ++ dec (fst (Token.map token) + 1)
                   ++ u " could not be read: " ++ err))
     | DirectiveYAMLError cls msg => Raise (YAMLError cls msg)
     end).
Proof.
  unfold fenced_cell, flushed, read_fenced_cell, fenced_metadata.
  destruct (_flush_markdown cfg lines _ _ _ _) as [cells|e]; [|reflexivity].
  cbn [bind].
  destruct (parse_directive_text (Token.content token)); reflexivity.
Qed.

Lemma fenced_cell_inv st level token cell_type kind st' :
  fenced_cell cfg lines st level token cell_type (new_cell_of kind) = Return st' ->
  exists cells options body_lines,
    flushed cfg lines st token = Return cells
    /\ parse_directive_text (Token.content token) = DirectiveParsed options body_lines
    /\ validate_cell kind options = None
    /\ st' = {| nesting_level := level;
                md_metadata := [];
                md_start_line := snd (Token.map token);
                notebook_cells :=
                  cells ++ [new_cell kind (random_cell_id (List.length cells))
                                     (join [NL] body_lines)
                                     (fenced_metadata cfg token options)] |}.
Proof.
  rewrite fenced_cell_unfold.
  destruct (flushed cfg lines st token) as [cells|e]; [|discriminate].
  cbn [bind].
  destruct (parse_directive_text (Token.content token)) as [options body| |];
    try discriminate.
  unfold new_cell_of. rewrite validate_fenced_metadata.
  destruct (validate_cell kind options) eqn:Hv; [discriminate|].
  cbn [bind]. intros H. injection H as <-.
  now exists cells, options, body.
Qed.

(** What a step that returns leaves: the level is updated; a nested or
    ordinary token changes nothing else, a boundary token flushes and
    moves the start line. *)
Lemma step_inv st token st' :
  step cfg lines st token = Return st' ->
  nesting_level st' = (nesting_level st + Token.nesting token)%Z
  /\ ((((nesting_level st + Token.nesting token)%Z <> 0%Z
        \/ is_boundary cfg token = false)
       /\ st' = with_level st (nesting_level st + Token.nesting token))
      \/ ((nesting_level st + Token.nesting token)%Z = 0%Z
          /\ (is_code_fence cfg token || is_raw_fence cfg token) = true
          /\ md_metadata st' = []
          /\ md_start_line st' = snd (Token.map token)
          /\ exists cells cell,
              flushed cfg lines st token = Return cells
              /\ fence_cell cfg token cell
              /\ notebook_cells st' = cells ++ [cell])
      \/ ((nesting_level st + Token.nesting token)%Z = 0%Z
          /\ (is_code_fence cfg token || is_raw_fence cfg token) = false
          /\ is_break token = true
          /\ md_start_line st' = snd (Token.map token)
          /\ exists cells,
              flushed cfg lines st token = Return cells
              /\ read_cell_metadata token (List.length cells)
                 = Return (md_metadata st')
              /\ notebook_cells st' = cells)).
Proof.
  intros E.
  destruct (Z.eq_dec (nesting_level st + Token.nesting token) 0) as [Hl|Hl].
  2:{ rewrite step_nested in E by exact Hl. injection E as <-.
      split; [reflexivity|]. left. split; [now left | reflexivity]. }
  destruct (is_code_fence cfg token) eqn:Hc.
  { rewrite (step_code _ _ Hl Hc) in E.
    apply fenced_cell_inv in E as (cells & options & body & Hf & Hp & _ & ->).
    split; [now rewrite Hl|]. right; left. repeat split; try assumption.
    eexists cells, _. split; [exact Hf|]. split; [|reflexivity].
    exists options, body, (List.length cells). now rewrite Hc. }
  destruct (is_raw_fence cfg token) eqn:Hr.
  { rewrite (step_raw _ _ Hl Hc Hr) in E.
    apply fenced_cell_inv in E as (cells & options & body & Hf & Hp & _ & ->).
    split; [now rewrite Hl|]. right; left. repeat split; try assumption.
    eexists cells, _. split; [exact Hf|]. split; [|reflexivity].
    exists options, body, (List.length cells). now rewrite Hc. }
  destruct (is_break token) eqn:Hb.
  - rewrite (step_break _ _ Hl Hb) in E.
    destruct (flushed cfg lines st token) as [cells|e] eqn:Hf; [|discriminate].
    cbn [bind] in E.
    destruct (read_cell_metadata token (List.length cells)) as [metadata|e] eqn:Hm;
      [|discriminate].
    cbn [bind] in E. injection E as <-.
    split; [now rewrite Hl|]. right; right. repeat split; try assumption.
    exists cells. now repeat split.
  - assert (Hn : is_boundary cfg token = false)
      by (unfold is_boundary; now rewrite Hc, Hr, Hb).
    rewrite (step_other _ _ Hl Hn) in E. injection E as <-.
    split; [now rewrite Hl|]. left. rewrite Hl. split; [now right | reflexivity].
Qed.


End StepFacts.

(** The conversion, as the front-matter block, the validation of the
    notebook metadata, and the cells. *)
Lemma myst_to_notebook_unfold {C : Collaborators} cfg text :
  myst_to_notebook cfg text
  = ('(start_line, metadata_nb, tokens) <- read_front_matter (parse (text ++ [NL])) ;;
     metadata_nb <- new_notebook_metadata metadata_nb ;;
     cells <- cells_from cfg (splitlines text)
                {| nesting_level := 0; md_metadata := [];
                   md_start_line := start_line; notebook_cells := [] |} tokens ;;
     Return (new_notebook metadata_nb cells)).
Proof.
  unfold myst_to_notebook, notebook_of_tokens, cells_from.
  destruct (read_front_matter (parse (text ++ [NL])))
    as [[[start_line metadata_nb] tokens]|e]; [|reflexivity].
  cbn [bind]. destruct (new_notebook_metadata metadata_nb); [|reflexivity].
  cbn [bind]. now destruct (scan cfg (splitlines text) _ tokens).
Qed.

(** ** Two runs side by side *)

(** Two runs of the scan, with libraries, configurations and cell lists
    of their own.  When the two agree on the directive names and on the
    JSON and option parsers, and creating a cell keeps the cell lists
    related, the runs stay related to the end: both return, in related
    states, or both raise the same exception. *)
Section TwoRuns.

Variables C1 C2 : Collaborators.
Variables cfg1 cfg2 : Config.
Variable lines : list str.
Variable RL : list Cell -> list Cell -> Prop.

Hypothesis same_code_directive : code_directive cfg1 = code_directive cfg2.
Hypothesis same_raw_directive : raw_directive cfg1 = raw_directive cfg2.
Hypothesis same_json : forall text, @json_loads C1 text = @json_loads C2 text.
Hypothesis same_options :
  forall text, @parse_directive_text C1 text = @parse_directive_text C2 text.
Hypothesis same_length : forall a b, RL a b -> List.length a = List.length b.
Hypothesis markdown_related :
  forall a b start_line endline md src,
    RL a b ->
    related_results RL
      (cell <- @new_cell_of C1 markdown (List.length a) src
                            (markdown_metadata cfg1 start_line endline md) ;;
       Return (a ++ [cell]))
      (cell <- @new_cell_of C2 markdown (List.length b) src
                            (markdown_metadata cfg2 start_line endline md) ;;
       Return (b ++ [cell])).
Hypothesis fenced_related :
  forall kind a b token options src,
    RL a b ->
    related_results RL
      (cell <- @new_cell_of C1 kind (List.length a) src
                            (fenced_metadata cfg1 token options) ;;
       Return (a ++ [cell]))
      (cell <- @new_cell_of C2 kind (List.length b) src
                            (fenced_metadata cfg2 token options) ;;
       Return (b ++ [cell])).

Lemma flush_related start_line token md a b :
  RL a b ->
  related_results RL
    (@_flush_markdown C1 cfg1 lines start_line token md a)
    (@_flush_markdown C2 cfg2 lines start_line token md b).
Proof.
  intros R. rewrite !flush_unfold.
  destruct (flush_source lines start_line token) eqn:E; [exact R|].
  now apply markdown_related.
Qed.

Lemma fenced_cell_related st1 st2 level token cell_type kind :
  related_states RL st1 st2 ->
  related_results (related_states RL)
    (@fenced_cell C1 cfg1 lines st1 level token cell_type (@new_cell_of C1 kind))
    (@fenced_cell C2 cfg2 lines st2 level token cell_type (@new_cell_of C2 kind)).
Proof.
  intros (Hl & Hmd & Hs & Hc). rewrite !fenced_cell_unfold. unfold flushed.
  pose proof (flush_related (md_start_line st1) (Some token) (md_metadata st1) Hc)
    as Hflush.
  rewrite <- Hs, <- Hmd.
  destruct (@_flush_markdown C1 cfg1 lines _ _ _ (notebook_cells st1)) as [a|e1];
    destruct (@_flush_markdown C2 cfg2 lines _ _ _ (notebook_cells st2)) as [b|e2];
    cbn [related_results bind] in *; try contradiction; [|exact Hflush].
  rewrite <- same_options. pose proof (same_length Hflush) as Hlen.
  destruct (@parse_directive_text C1 (Token.content token)) as [options body| |];
    cbn [related_results]; [|now rewrite Hlen|reflexivity].
  pose proof (fenced_related kind token options (join [NL] body) Hflush) as Hcell.
  destruct (@new_cell_of C1 kind (List.length a) _ _) as [c1|e1];
    destruct (@new_cell_of C2 kind (List.length b) _ _) as [c2|e2];
    cbn [related_results bind] in *; try contradiction; [|exact Hcell].
  now repeat split.
Qed.

Lemma step_related st1 st2 token :
  related_states RL st1 st2 ->
  related_results (related_states RL)
    (@step C1 cfg1 lines st1 token) (@step C2 cfg2 lines st2 token).
Proof.
  intros R. pose proof R as (Hl & Hmd & Hs & Hc).
  assert (Hcode : is_code_fence cfg1 token = is_code_fence cfg2 token)
    by (unfold is_code_fence; now rewrite same_code_directive).
  assert (Hraw : is_raw_fence cfg1 token = is_raw_fence cfg2 token)
    by (unfold is_raw_fence; now rewrite same_raw_directive).
  destruct (Z.eq_dec (nesting_level st1 + Token.nesting token) 0) as [H0|H0].
  - assert (H0' : (nesting_level st2 + Token.nesting token = 0)%Z) by now rewrite <- Hl.
    destruct (is_code_fence cfg1 token) eqn:Ec.
    { rewrite (@step_code C1 cfg1 lines st1 token H0 Ec).
      rewrite (@step_code C2 cfg2 lines st2 token H0') by now rewrite <- Hcode.
      now apply fenced_cell_related. }
    destruct (is_raw_fence cfg1 token) eqn:Er.
    { rewrite (@step_raw C1 cfg1 lines st1 token H0 Ec Er).
      rewrite (@step_raw C2 cfg2 lines st2 token H0')
        by (first [now rewrite <- Hcode | now rewrite <- Hraw]).
      now apply fenced_cell_related. }
    destruct (is_break token) eqn:Eb.
    + rewrite (@step_break C1 cfg1 lines st1 token H0 Eb).
      rewrite (@step_break C2 cfg2 lines st2 token H0' Eb). unfold flushed.
      pose proof (flush_related (md_start_line st1) (Some token) (md_metadata st1) Hc)
        as Hflush.
      rewrite <- Hs, <- Hmd.
      destruct (@_flush_markdown C1 cfg1 lines _ _ _ (notebook_cells st1)) as [a|e1];
        destruct (@_flush_markdown C2 cfg2 lines _ _ _ (notebook_cells st2)) as [b|e2];
        cbn [related_results bind] in *; try contradiction; [|exact Hflush].
      rewrite <- (same_length Hflush).
      unfold read_cell_metadata. rewrite <- same_json.
      destruct (Token.content token) as [|c content];
        [cbn [related_results bind]; now repeat split|].
      destruct (@json_loads C1 (strip (c :: content))) as [err|[]];
        cbn [related_results bind]; try reflexivity.
      now repeat split.
    + assert (Hn1 : is_boundary cfg1 token = false)
        by (unfold is_boundary; now rewrite Ec, Er, Eb).
      assert (Hn2 : is_boundary cfg2 token = false)
        by (unfold is_boundary; now rewrite <- Hcode, <- Hraw, Eb).
      rewrite (@step_other C1 cfg1 lines st1 token H0 Hn1).
      rewrite (@step_other C2 cfg2 lines st2 token H0' Hn2).
      now repeat split.
  - assert (H0' : (nesting_level st2 + Token.nesting token <> 0)%Z) by now rewrite <- Hl.
    rewrite (@step_nested C1 cfg1 lines st1 token H0).
    rewrite (@step_nested C2 cfg2 lines st2 token H0').
    repeat split; simpl; congruence.
Qed.

Lemma scan_related tokens : forall st1 st2,
  related_states RL st1 st2 ->
  related_results (related_states RL)
    (@scan C1 cfg1 lines st1 tokens) (@scan C2 cfg2 lines st2 tokens).
Proof.
  induction tokens as [|token rest IH]; intros st1 st2 R; simpl; [exact R|].
  pose proof (step_related token R) as Hstep.
  destruct (@step C1 cfg1 lines st1 token) as [a|e1];
    destruct (@step C2 cfg2 lines st2 token) as [b|e2];
    cbn [related_results bind] in *; try contradiction.
  - now apply IH.
  - exact Hstep.
Qed.

Lemma cells_from_related tokens st1 st2 :
  related_states RL st1 st2 ->
  related_results RL
    (@cells_from C1 cfg1 lines st1 tokens) (@cells_from C2 cfg2 lines st2 tokens).
Proof.
  intros R. unfold cells_from. pose proof (scan_related tokens R) as Hscan.
  destruct (@scan C1 cfg1 lines st1 tokens) as [a|e1];
    destruct (@scan C2 cfg2 lines st2 tokens) as [b|e2];
    cbn [related_results bind] in *; try contradiction; [|exact Hscan].
  destruct Hscan as (_ & Hmd & Hs & Hc). rewrite <- Hmd, <- Hs.
  now apply flush_related.
Qed.

(** The same for the whole conversion, when the two runs also agree on
    the tokenizer, the YAML parser and the validation of the notebook
    metadata. *)
Hypothesis same_parse : forall text, @parse C1 text = @parse C2 text.
Hypothesis same_yaml :
  forall text, @yaml_safe_load C1 text = @yaml_safe_load C2 text.
Hypothesis same_validate_notebook :
  forall v, @validate_notebook C1 v = @validate_notebook C2 v.
Hypothesis related_nil : RL [] [].

Lemma notebooks_related text :
  splitlines text = lines ->
  related_results
    (fun nb1 nb2 => nb_metadata nb1 = nb_metadata nb2 /\ RL (cells nb1) (cells nb2))
    (@myst_to_notebook C1 cfg1 text) (@myst_to_notebook C2 cfg2 text).
Proof.
  intros Hlines. rewrite !myst_to_notebook_unfold, <- same_parse, Hlines.
  assert (Hfm : @read_front_matter C2 (@parse C1 (text ++ [NL]))
                = @read_front_matter C1 (@parse C1 (text ++ [NL]))).
  { unfold read_front_matter. destruct (@parse C1 (text ++ [NL])); [reflexivity|].
    now rewrite same_yaml. }
  rewrite Hfm.
  destruct (@read_front_matter C1 (@parse C1 (text ++ [NL])))
    as [[[start_line metadata_nb] tokens]|e]; cbn [bind related_results];
    [|reflexivity].
  unfold new_notebook_metadata. rewrite <- same_validate_notebook.
  destruct (@validate_notebook C1 metadata_nb); cbn [bind related_results];
    [reflexivity|].
  assert (R : related_states RL
                {| nesting_level := 0; md_metadata := [];
                   md_start_line := start_line; notebook_cells := [] |}
                {| nesting_level := 0; md_metadata := [];
                   md_start_line := start_line; notebook_cells := [] |})
    by now repeat split.
  pose proof (cells_from_related tokens R) as Hcells.
  destruct (@cells_from C1 cfg1 lines _ tokens) as [a|e1];
    destruct (@cells_from C2 cfg2 lines _ tokens) as [b|e2];
    cbn [bind related_results] in *; try contradiction; [|exact Hcells].
  now split.
Qed.

End TwoRuns.

(** ** The scan *)


Lemma with_level_same (st : State) : with_level st (nesting_level st) = st.
Proof. now destruct st. Qed.

Lemma read_front_matter_inv {C : Collaborators} tokens start_line metadata_nb tokens' :
  read_front_matter tokens = Return (start_line, metadata_nb, tokens') ->
  tokens' = scanned_tokens tokens
  /\ {| nesting_level := 0; md_metadata := [];
        md_start_line := start_line; notebook_cells := [] |} = initial_state tokens.
Proof.
  unfold read_front_matter, scanned_tokens, initial_state.
  destruct tokens as [|first rest]; [discriminate|].
  destruct (str_eqb (Token.type first) (u "front_matter")).
  - destruct (yaml_safe_load (Token.content first)) as [v|[| |] msg]; try discriminate.
    intros H. injection H as <- _ <-. now split.
  - intros H. injection H as <- _ <-. now split.
Qed.

(** The error of the front-matter block, when it is a metadata error. *)
Lemma read_front_matter_raise {C : Collaborators} tokens msg :
  read_front_matter tokens = Raise (MystMetadataParsingError msg) ->
  exists first rest cls error,
    tokens = first :: rest
    /\ str_eqb (Token.type first) (u "front_matter") = true
    /\ yaml_safe_load (Token.content first) = YamlError cls error
    /\ (cls = ParserError \/ cls = ScannerError)
    /\ msg = u "Notebook metadata: " ++ error.
Proof.
  unfold read_front_matter.
  destruct tokens as [|first rest]; [discriminate|].
  destruct (str_eqb (Token.type first) (u "front_matter")) eqn:Hfm; [|discriminate].
  destruct (yaml_safe_load (Token.content first)) as [v|cls error] eqn:E;
    [discriminate|].
  intros H. exists first, rest, cls, error.
  destruct cls; try discriminate; injection H as <-; repeat split; auto.
Qed.

Lemma myst_to_notebook_inv {C : Collaborators} cfg text nb :
  myst_to_notebook cfg text = Return nb ->
  let tokens := parse (text ++ [NL]) in
  read_front_matter tokens
  = Return (md_start_line (initial_state tokens), nb_metadata nb, scanned_tokens tokens)
  /\ validate_notebook (nb_metadata nb) = None
  /\ cells_from cfg (splitlines text) (initial_state tokens) (scanned_tokens tokens)
     = Return (cells nb).
Proof.
  intros H tokens. rewrite myst_to_notebook_unfold in H. fold tokens in H.
  destruct (read_front_matter tokens) as [[[start_line metadata_nb] tokens']|e] eqn:E;
    [|discriminate].
  cbn [bind] in H. unfold new_notebook_metadata in H.
  destruct (validate_notebook metadata_nb) eqn:Hv; [discriminate|].
  cbn [bind] in H. destruct (read_front_matter_inv _ E) as [-> Hinit].
  assert (Hs : start_line = md_start_line (initial_state tokens))
    by now rewrite <- Hinit.
  rewrite Hinit in H.
  destruct (cells_from cfg (splitlines text) (initial_state tokens)
                       (scanned_tokens tokens)) as [cs|e]; [|discriminate].
  cbn [bind] in H. injection H as <-. cbn [nb_metadata cells].
  rewrite <- Hs. now repeat split.
Qed.

Section ScanFacts.

Context {C : Collaborators}.
Variable cfg : Config.
Variable lines : list str.





(** Tokens that are nested or ordinary change the level only. *)
Lemma scan_no_boundary tokens : forall st,
  top_level_boundaries cfg (nesting_level st) tokens = 0 ->
  scan cfg lines st tokens
  = Return (with_level st (level_after (nesting_level st) tokens)).
Proof.
  induction tokens as [|token rest IH]; intros st H; simpl.
  - unfold level_after. simpl. now rewrite with_level_same.
  - simpl in H.
    destruct (Z.eqb_spec (nesting_level st + Token.nesting token) 0) as [Hl|Hl].
    + destruct (is_boundary cfg token) eqn:Hb; [discriminate|].
      simpl in H. rewrite step_other by assumption. cbn [bind].
      rewrite IH by (simpl; now rewrite <- Hl).
      unfold level_after. simpl. now rewrite Hl.
    + simpl in H. rewrite step_nested by assumption. cbn [bind].
      now rewrite IH by exact H.
Qed.

Lemma no_boundaries tokens : forall level,
  top_level_directive_fences cfg level tokens = [] ->
  break_tokens tokens = [] ->
  top_level_boundaries cfg level tokens = 0.
Proof.
  induction tokens as [|token rest IH]; intros level Hf Hb; simpl; [reflexivity|].
  simpl in Hf. unfold break_tokens in Hb. simpl in Hb.
  destruct (is_break token) eqn:Ebreak; [discriminate|].
  unfold is_boundary. rewrite Ebreak, orb_false_r.
  destruct ((level + Token.nesting token =? 0)%Z
            && (is_code_fence cfg token || is_raw_fence cfg token));
    [discriminate|].
  now apply IH.
Qed.




Lemma scan_level tokens : forall st st',
  scan cfg lines st tokens = Return st' ->
  nesting_level st' = level_after (nesting_level st) tokens.
Proof.
  induction tokens as [|token rest IH]; intros st st' H; simpl in H.
  - now injection H as <-.
  - destruct (step cfg lines st token) as [st1|e] eqn:E; simpl in H; [|discriminate].
    apply step_inv in E as [Hl _]. rewrite (IH _ _ H), Hl. reflexivity.
Qed.



End ScanFacts.

(** * The converter against its specification *)

(** ** Cells of top-level directive fences *)


(** ** Documents without fences or breaks *)

(** C2, amended: when the token stream is not empty, does not open with a
    front-matter token and holds no top-level directive fence and no
    document break, the notebook has empty metadata and exactly one
    Markdown cell, whose source is [strip_blank_lines] of the lines of the
    text joined by newlines (trailing whitespace and leading newlines
    removed, leading spaces kept); or no cell when that source is empty. *)
Theorem C2_plain_markdown_single_cell {C : Collaborators}
        (cfg : Config) (text : str) (first : Token.t) (rest : list Token.t) :
  parse (text ++ [NL]) = first :: rest ->
  str_eqb (Token.type first) (u "front_matter") = false ->
  top_level_directive_fences cfg 0 (first :: rest) = [] ->
  break_tokens (first :: rest) = [] ->
  myst_to_notebook cfg text
  = Return (new_notebook
              (PDict [])
              match strip_blank_lines (join [NL] (splitlines text)) with
              | [] => []
              | _ :: _ =>
                  [new_cell markdown (random_cell_id 0)
                     (strip_blank_lines (join [NL] (splitlines text)))
                     (markdown_metadata cfg 0 (List.length (splitlines text)) [])]
              end).
Proof.
  intros Hp Hfm Hf Hb. rewrite myst_to_notebook_unfold.
  rewrite Hp. unfold read_front_matter. rewrite Hfm. cbn [bind].
  unfold new_notebook_metadata. rewrite validate_notebook_empty. cbn [bind].
  unfold cells_from.
  rewrite scan_no_boundary by (apply no_boundaries; assumption).
  cbn [bind with_level md_start_line md_metadata notebook_cells].
  rewrite flush_unfold. unfold flush_source, md_source, endline_of.
  rewrite slice_all.
  destruct (strip_blank_lines (join [NL] (splitlines text))) as [|c s] eqn:E;
    [reflexivity|].
  unfold new_cell_of. rewrite validate_markdown_metadata, validate_cell_empty.
  reflexivity.
Qed.

(** ** Cell metadata of a document break *)


(** C3, amended: a document break met while the running nesting level is
    not 0 is skipped: the pending metadata stays as it is.  A break met
    at level 0 first flushes the markdown before it; when nbformat
    rejects the Markdown cell of that flush the conversion ends in its
    [NotebookValidationError], whatever the content of the break.  After
    a flush that returns: an empty content makes the pending metadata the
    empty map; otherwise the content, stripped, goes to the JSON parser,
    an object becomes the pending metadata, and a parse failure, or a
    value that is not an object, raises [MystMetadataParsingError] with a
    message naming the number of cells produced so far and the 1-based
    line of the token, whatever tokens follow, so that no further cell
    is produced. *)
Theorem C3_break_metadata {C : Collaborators} (cfg : Config) (lines : list str)
        (st : State) (token : Token.t) :
  is_break token = true ->
  let level := (nesting_level st + Token.nesting token)%Z in
  (level <> 0%Z -> step cfg lines st token = Return (with_level st level))
  /\ (level = 0%Z ->
      (forall msg rest,
          flush_source lines (md_start_line st) (Some token) <> [] ->
          validate_cell markdown (md_metadata st) = Some msg ->
          scan cfg lines st (token :: rest) = Raise (NotebookValidationError msg))
      /\ (forall cells,
             flushed cfg lines st token = Return cells ->
             let cell_index := List.length cells in
             let line := fst (Token.map token) + 1 in
             let after metadata :=
                 {| nesting_level := 0;
                    md_metadata := metadata;
                    md_start_line := snd (Token.map token);
                    notebook_cells := cells |} in
             (Token.content token = [] ->
              step cfg lines st token = Return (after []))
             /\ (Token.content token <> [] ->
                 (forall metadata,
                     json_loads (strip (Token.content token)) = inr (PDict metadata) ->
                     step cfg lines st token = Return (after metadata))
                 /\ (forall err rest,
                        json_loads (strip (Token.content token)) = inl err ->
                        scan cfg lines st (token :: rest)
                        = Raise (MystMetadataParsingError
                                   (u "Markdown cell " ++ dec cell_index
                                    ++ u " at line " ++ dec line
                                    ++ u " could not be read: " ++ err)))
                 /\ (forall v rest,
                        json_loads (strip (Token.content token)) = inr v ->
                        (forall metadata, v <> PDict metadata) ->
                        scan cfg lines st (token :: rest)
                        = Raise (MystMetadataParsingError
                                   (u "Markdown cell " ++ dec cell_index
                                    ++ u " at line " ++ dec line
                                    ++ u " is not a dict")))))).
Proof.
  intros Hb level. split; [apply step_nested|].
  intros Hl. pose proof (step_break cfg lines st token Hl Hb) as Hstep. split.
  - intros msg rest Hne Hv. cbn [scan]. rewrite Hstep. unfold flushed.
    now rewrite (@flush_invalid C cfg lines _ _ _ (notebook_cells st) msg Hne Hv).
  - intros cells Hflush cell_index line after. rewrite Hflush in Hstep.
    cbn [bind] in Hstep. fold cell_index in Hstep. split.
    + intros E. rewrite Hstep. unfold read_cell_metadata. now rewrite E.
    + intros E. destruct (Token.content token) as [|c content] eqn:Ec; [contradiction|].
      repeat split.
      * intros metadata Hj. rewrite Hstep. unfold read_cell_metadata.
        now rewrite Ec, Hj.
      * intros err rest Hj. cbn [scan]. rewrite Hstep. unfold read_cell_metadata.
        now rewrite Ec, Hj.
      * intros v rest Hj Hv. cbn [scan]. rewrite Hstep. unfold read_cell_metadata.
        rewrite Ec, Hj. destruct v; try reflexivity. now elim (Hv d).
Qed.

(** ** Pending metadata *)


(** Runs that start with the same pending metadata, on cell lists that
    are one list behind two prefixes of one length. *)
Section BehindPrefixes.

Context {C : Collaborators}.
Variable cfg : Config.
Variable lines : list str.
Variables P P' : list Cell.
Hypothesis prefixes : List.length P = List.length P'.




End BehindPrefixes.


(** ** Dialect detection *)

Section Detection.

Context {C : Collaborators}.

Lemma is_myst_notebook_block text block :
  front_matter_block text = Some block ->
  is_myst_notebook text
  = (front_matter <- safe_load block ;;
     jupytext <- py_get front_matter (u "jupytext") (PDict []) ;;
     text_representation <- py_get jupytext (u "text_representation") (PDict []) ;;
     format_name <- py_get text_representation (u "format_name") PNone ;;
     if negb (py_eq_str format_name (u "myst")) then Return false
     else
       kernelspec <- py_get front_matter (u "kernelspec") (PDict []) ;;
       has_name <- py_in (u "name") kernelspec ;;
       if negb has_name then
         Raise (IOError (u "A myst notebook text-representation requires kernelspec/name metadata"))
       else
         kernelspec <- py_get front_matter (u "kernelspec") (PDict []) ;;
         has_display_name <- py_in (u "display_name") kernelspec ;;
         if negb has_display_name then
           Raise (IOError (u "A myst notebook text-representation requires kernelspec/display_name metadata"))
         else Return true).
Proof.
  unfold front_matter_block, is_myst_notebook.
  destruct (splitlines text) as [|first rest]; [discriminate|].
  destruct (startswith first (u "---")); [|discriminate].
  intros H. injection H as <-. reflexivity.
Qed.

(** No front matter: not this dialect. *)
Lemma is_myst_notebook_no_front_matter text :
  front_matter_block text = None -> is_myst_notebook text = Return false.
Proof.
  unfold front_matter_block, is_myst_notebook.
  destruct (splitlines text) as [|first rest]; [reflexivity|].
  destruct (startswith first (u "---")); [discriminate|reflexivity].
Qed.

(** A front matter that is a map, with another format name or none:
    not this dialect. *)
Lemma is_myst_notebook_other_format text block front_matter jupytext
      text_representation :
  front_matter_block text = Some block ->
  yaml_safe_load block = YamlValue (PDict front_matter) ->
  get_or front_matter (u "jupytext") (PDict []) = PDict jupytext ->
  get_or jupytext (u "text_representation") (PDict []) = PDict text_representation ->
  py_eq_str (get_or text_representation (u "format_name") PNone) (u "myst") = false ->
  is_myst_notebook text = Return false.
Proof.
  intros Hb Hy Hj Ht Hf. rewrite (is_myst_notebook_block _ Hb).
  unfold safe_load. rewrite Hy. cbn [bind py_get].
  fold (get_or front_matter (u "jupytext") (PDict [])). rewrite Hj. cbn [bind py_get].
  fold (get_or jupytext (u "text_representation") (PDict [])). rewrite Ht.
  cbn [bind py_get].
  fold (get_or text_representation (u "format_name") PNone). now rewrite Hf.
Qed.

Lemma lookup_path_format front_matter :
  lookup_path (PDict front_matter)
              [u "jupytext"; u "text_representation"; u "format_name"]
  = Some (PStr (u "myst")) ->
  exists jupytext text_representation,
    dict_lookup front_matter (u "jupytext") = Some (PDict jupytext)
    /\ dict_lookup jupytext (u "text_representation") = Some (PDict text_representation)
    /\ dict_lookup text_representation (u "format_name") = Some (PStr (u "myst")).
Proof.
  cbn [lookup_path].
  destruct (dict_lookup front_matter (u "jupytext"))
    as [[| | | | | |jupytext]|] eqn:Hj; try discriminate.
  destruct (dict_lookup jupytext (u "text_representation"))
    as [[| | | | | |text_representation]|] eqn:Ht; try discriminate.
  destruct (dict_lookup text_representation (u "format_name")) as [v|] eqn:Hn;
    try discriminate.
  intros H. injection H as ->. now exists jupytext, text_representation.
Qed.

End Detection.

(** C5, amended: when the front matter parses to a map whose
    [jupytext.text_representation.format_name] is the dialect tag and
    whose [kernelspec] entry is missing or is a map, a missing
    [kernelspec.name], or else a missing [kernelspec.display_name], makes
    [is_myst_notebook] raise [IOError] (not [MystMetadataParsingError])
    with a message naming the missing field; with both present it returns
    [True]. *)
Theorem C5_missing_kernelspec_raises_IOError {C : Collaborators}
        (text block : str) (front_matter kernelspec : dict) :
  front_matter_block text = Some block ->
  yaml_safe_load block = YamlValue (PDict front_matter) ->
  lookup_path (PDict front_matter)
              [u "jupytext"; u "text_representation"; u "format_name"]
  = Some (PStr (u "myst")) ->
  get_or front_matter (u "kernelspec") (PDict []) = PDict kernelspec ->
  (dict_lookup kernelspec (u "name") = None ->
   is_myst_notebook text
   = Raise (IOError (u "A myst notebook text-representation requires kernelspec/name metadata")))
  /\ (dict_lookup kernelspec (u "name") <> None ->
      dict_lookup kernelspec (u "display_name") = None ->
      is_myst_notebook text
      = Raise (IOError (u "A myst notebook text-representation requires kernelspec/display_name metadata")))
  /\ (dict_lookup kernelspec (u "name") <> None ->
      dict_lookup kernelspec (u "display_name") <> None ->
      is_myst_notebook text = Return true).
Proof.
  intros Hb Hy Hf Hk.
  apply lookup_path_format in Hf as (jupytext & text_representation & Hj & Ht & Hn).
  assert (E : is_myst_notebook text
              = (has_name <- py_in (u "name") (PDict kernelspec) ;;
                 if negb has_name then
                   Raise (IOError (u "A myst notebook text-representation requires kernelspec/name metadata"))
                 else
                   has_display_name <- py_in (u "display_name") (PDict kernelspec) ;;
                   if negb has_display_name then
                     Raise (IOError (u "A myst notebook text-representation requires kernelspec/display_name metadata"))
                   else Return true)).
  { rewrite (is_myst_notebook_block _ Hb). unfold safe_load. rewrite Hy.
    cbn [bind py_get]. rewrite Hj. cbn [bind py_get]. rewrite Ht.
    cbn [bind py_get]. rewrite Hn.
    replace (py_eq_str (PStr (u "myst")) (u "myst")) with true by reflexivity.
    cbn [negb]. fold (get_or front_matter (u "kernelspec") (PDict [])).
    now rewrite Hk. }
  rewrite E. cbn [py_in bind].
  destruct (dict_lookup kernelspec (u "name")) as [name|];
    destruct (dict_lookup kernelspec (u "display_name")) as [display_name|];
    cbn [negb bind]; repeat split; intros; try reflexivity; congruence.
Qed.

(** C6, where the code departs from the claim: a front matter the YAML
    parser rejects makes [is_myst_notebook] leave with the parser's
    exception; it does not return [False]. *)
Theorem C6_malformed_front_matter_raises {C : Collaborators}
        (text block : str) (cls : yaml_error_class) (msg : str) :
  front_matter_block text = Some block ->
  yaml_safe_load block = YamlError cls msg ->
  is_myst_notebook text = Raise (YAMLError cls msg).
Proof.
  intros Hb Hy. rewrite (is_myst_notebook_block _ Hb).
  unfold safe_load. now rewrite Hy.
Qed.

(** ** Errors *)

Section Errors.

Context {C : Collaborators}.
Variable cfg : Config.
Variable lines : list str.

(** A scan that raises stops at one token, after the tokens before it
    were scanned without error. *)
Lemma scan_raise_inv tokens : forall st e,
  scan cfg lines st tokens = Raise e ->
  exists pre token post st1,
    tokens = pre ++ token :: post
    /\ scan cfg lines st pre = Return st1
    /\ step cfg lines st1 token = Raise e.
Proof.
  induction tokens as [|token rest IH]; intros st e H; simpl in H; [discriminate|].
  destruct (step cfg lines st token) as [st1|e1] eqn:E; simpl in H.
  - destruct (IH _ _ H) as (pre & t & post & st2 & -> & Hpre & Hstep).
    exists (token :: pre), t, post, st2. simpl. rewrite E. simpl.
    repeat split; assumption.
  - injection H as ->. exists [], token, rest, st. repeat split; assumption.
Qed.

(** A flush raises nothing but the validation error of nbformat. *)
Lemma flush_raise_inv start_line token md cells e :
  _flush_markdown cfg lines start_line token md cells = Raise e ->
  exists msg,
    flush_source lines start_line token <> []
    /\ validate_cell markdown md = Some msg
    /\ e = NotebookValidationError msg.
Proof.
  rewrite flush_unfold.
  destruct (flush_source lines start_line token) eqn:Es; [discriminate|].
  unfold new_cell_of. rewrite validate_markdown_metadata.
  destruct (validate_cell markdown md) as [msg|]; [|discriminate].
  intros H. injection H as <-. exists msg. now repeat split.
Qed.

Lemma read_cell_metadata_raise token cell_index e :
  read_cell_metadata token cell_index = Raise e ->
  Token.content token <> []
  /\ ((exists err,
          json_loads (strip (Token.content token)) = inl err
          /\ e = MystMetadataParsingError
                   (u "Markdown cell " ++ dec cell_index ++ u " at line "
                    ++ dec (fst (Token.map token) + 1)
                    ++ u " could not be read: " ++ err))
      \/ ((exists v,
              json_loads (strip (Token.content token)) = inr v
              /\ forall d, v <> PDict d)
          /\ e = MystMetadataParsingError
                   (u "Markdown cell " ++ dec cell_index ++ u " at line "
                    ++ dec (fst (Token.map token) + 1) ++ u " is not a dict"))).
Proof.
  unfold read_cell_metadata.
  destruct (Token.content token) as [|c content]; [discriminate|].
  intros H. split; [discriminate|].
  destruct (json_loads (strip (c :: content))) as [err|v].
  - injection H as <-. left. now exists err.
  - destruct v; try discriminate; injection H as <-; right;
      (split; [eexists; split; [reflexivity | discriminate] | reflexivity]).
Qed.

(** The metadata error of a fence: the flush has returned, and the
    options of the fence do not parse. *)
Lemma fenced_cell_raise st level token cell_type kind msg :
  fenced_cell cfg lines st level token cell_type (new_cell_of kind)
  = Raise (MystMetadataParsingError msg) ->
  exists cells err,
    flushed cfg lines st token = Return cells
    /\ parse_directive_text (Token.content token) = DirectiveParsingError err
    /\ msg = cell_type ++ u " cell " ++ dec (List.length cells)
             ++ u " at line " ++ dec (fst (Token.map token) + 1)
             ++ u " could not be read: " ++ err.
Proof.
  rewrite fenced_cell_unfold.
  destruct (flushed cfg lines st token) as [cells|e] eqn:Hflush.
  - cbn [bind].
    destruct (parse_directive_text (Token.content token)) as [options body|err|cls m];
      try discriminate.
    + unfold new_cell_of.
      destruct (validate_cell kind (fenced_metadata cfg token options)); discriminate.
    + intros H. injection H as <-. now exists cells, err.
  - cbn [bind]. intros H. injection H as ->.
    apply flush_raise_inv in Hflush as (m & _ & _ & Hm). discriminate.
Qed.

(** The four ways a step raises a metadata error. *)
Lemma step_raise_metadata st token msg :
  step cfg lines st token = Raise (MystMetadataParsingError msg) ->
  (nesting_level st + Token.nesting token = 0)%Z
  /\ exists cells,
      flushed cfg lines st token = Return cells
      /\ let cell_index := List.length cells in
         let line := fst (Token.map token) + 1 in
         (is_code_fence cfg token = true
          /\ exists err,
              parse_directive_text (Token.content token) = DirectiveParsingError err
              /\ msg = u "Code" ++ u " cell " ++ dec cell_index ++ u " at line "
                       ++ dec line ++ u " could not be read: " ++ err)
         \/ (is_code_fence cfg token = false
             /\ is_raw_fence cfg token = true
             /\ exists err,
                 parse_directive_text (Token.content token)
                 = DirectiveParsingError err
                 /\ msg = u "Raw" ++ u " cell " ++ dec cell_index ++ u " at line "
                          ++ dec line ++ u " could not be read: " ++ err)
         \/ (is_break token = true
             /\ Token.content token <> []
             /\ exists err,
                 json_loads (strip (Token.content token)) = inl err
                 /\ msg = u "Markdown cell " ++ dec cell_index ++ u " at line "
                          ++ dec line ++ u " could not be read: " ++ err)
         \/ (is_break token = true
             /\ Token.content token <> []
             /\ (exists v,
                    json_loads (strip (Token.content token)) = inr v
                    /\ forall d, v <> PDict d)
             /\ msg = u "Markdown cell " ++ dec cell_index ++ u " at line "
                      ++ dec line ++ u " is not a dict").
Proof.
  intros E.
  destruct (Z.eq_dec (nesting_level st + Token.nesting token) 0) as [Hl|Hl].
  2:{ rewrite step_nested in E by exact Hl. discriminate. }
  split; [exact Hl|].
  destruct (is_code_fence cfg token) eqn:Hc.
  { rewrite (step_code cfg lines _ _ Hl Hc) in E.
    apply fenced_cell_raise in E as (cells & err & Hflush & Hp & ->).
    exists cells. split; [exact Hflush|]. left. split; [reflexivity|]. now exists err. }
  destruct (is_raw_fence cfg token) eqn:Hr.
  { rewrite (step_raw cfg lines _ _ Hl Hc Hr) in E.
    apply fenced_cell_raise in E as (cells & err & Hflush & Hp & ->).
    exists cells. split; [exact Hflush|]. right; left.
    split; [reflexivity|]. split; [reflexivity|]. now exists err. }
  destruct (is_break token) eqn:Hb.
  - rewrite (step_break cfg lines _ _ Hl Hb) in E.
    destruct (flushed cfg lines st token) as [cells|e] eqn:Hflush.
    + cbn [bind] in E. exists cells. split; [reflexivity|].
      destruct (read_cell_metadata token (List.length cells)) as [m|e] eqn:Hm;
        [discriminate|].
      cbn [bind] in E. injection E as ->.
      apply read_cell_metadata_raise in Hm as [Hne [(err & Hj & Hmsg)|[Hv Hmsg]]];
        injection Hmsg as ->.
      * right; right; left. split; [reflexivity|]. split; [exact Hne|]. now exists err.
      * right; right; right. now repeat split.
    + cbn [bind] in E. injection E as ->.
      apply flush_raise_inv in Hflush as (m & _ & _ & Hm). discriminate.
  - assert (Hn : is_boundary cfg token = false)
      by (unfold is_boundary; now rewrite Hc, Hr, Hb).
    rewrite (step_other cfg lines _ _ Hl Hn) in E. discriminate.
Qed.

End Errors.

(** C7, amended: a [MystMetadataParsingError] of the conversion has one of
    five causes, each with its message.  A front matter that the YAML
    parser rejects with a parser or scanner error gives
    "Notebook metadata: " and the parser's message: no cell type, index
    or line of its own.  The others arise at a token met at top level,
    after the markdown before it was flushed, and name a cell type, the
    number of cells produced so far and the 1-based line of the token:
    "Code" and the parser's message for a code fence whose options do not
    parse, "Raw" and the parser's message for a raw fence whose options
    do not parse, "Markdown" and the parser's message for a document
    break whose JSON does not parse, and "Markdown" with no parser
    message for a document break whose JSON is not an object. *)
Theorem C7_metadata_error_messages {C : Collaborators} (cfg : Config)
        (text msg : str) :
  myst_to_notebook cfg text = Raise (MystMetadataParsingError msg) ->
  metadata_error_shape cfg text msg.
Proof.
  intros H. unfold metadata_error_shape.
  set (tokens := parse (text ++ [NL])). set (lines := splitlines text).
  rewrite myst_to_notebook_unfold in H. fold tokens lines in H.
  destruct (read_front_matter tokens) as [[[start_line metadata_nb] tokens']|e] eqn:E;
    cbn [bind] in H.
  - right. apply read_front_matter_inv in E as [-> Hinit]. rewrite Hinit in H.
    unfold new_notebook_metadata in H.
    destruct (validate_notebook metadata_nb); [discriminate|].
    cbn [bind] in H. unfold cells_from in H.
    destruct (scan cfg lines (initial_state tokens) (scanned_tokens tokens))
      as [st|e] eqn:Es; cbn [bind] in H.
    + destruct (_flush_markdown cfg lines (md_start_line st) None (md_metadata st)
                                (notebook_cells st)) as [cells|e] eqn:Hflush;
        [discriminate|].
      cbn [bind] in H. injection H as ->.
      apply flush_raise_inv in Hflush as (m & _ & _ & Hm). discriminate.
    + injection H as ->.
      apply scan_raise_inv in Es as (pre & token & post & st & Htok & Hpre & Hstep).
      apply step_raise_metadata in Hstep as (Hl & cells & Hflush & Hcases).
      exists pre, token, post, st, cells. now repeat split.
  - left. injection H as ->. now apply read_front_matter_raise.
Qed.

(** ** The markdown flush, and the source of Markdown cells *)

(** C8, amended: a flush with start line [s] and end line [e] takes the
    lines from [s] to [e] (end exclusive) joined by newlines, removes all
    whitespace at the end (trailing blank lines, and trailing spaces of
    the last line of content) and all newline characters at the start
    (leading empty lines; a leading line of spaces stays).  When
    something is left it creates one Markdown cell with that source and
    the pending metadata, and appends it; when nbformat rejects the
    metadata of the cell the flush raises [NotebookValidationError]
    instead.  When nothing is left it appends nothing. *)
Theorem C8_flush_markdown {C : Collaborators} (cfg : Config) (lines : list str)
        (start_line : nat) (token : option Token.t) (pending : dict)
        (cells : list Cell) :
  let endline := endline_of lines token in
  let text := join [NL] (slice lines start_line endline) in
  let md_source := strip_blank_lines text in
  (exists n w, text = repeat NL n ++ md_source ++ w /\ forallb is_space w = true)
  /\ startswith md_source [NL] = false
  /\ no_trailing_space md_source
  /\ (md_source <> [] ->
      validate_cell markdown pending = None ->
      _flush_markdown cfg lines start_line token pending cells
      = Return (cells
                ++ [new_cell markdown (random_cell_id (List.length cells)) md_source
                      (markdown_metadata cfg start_line endline pending)]))
  /\ (forall msg,
         md_source <> [] ->
         validate_cell markdown pending = Some msg ->
         _flush_markdown cfg lines start_line token pending cells
         = Raise (NotebookValidationError msg))
  /\ (md_source = [] ->
      _flush_markdown cfg lines start_line token pending cells = Return cells).
Proof.
  intros endline text md_source. repeat split.
  - apply strip_blank_lines_split.
  - apply strip_blank_lines_head.
  - apply strip_blank_lines_no_trailing_space.
  - intros Hne Hv. exact (@flush_valid C cfg lines _ _ _ cells Hne Hv).
  - intros msg Hne Hv. exact (@flush_invalid C cfg lines _ _ _ cells msg Hne Hv).
  - intros E. now apply flush_empty.
Qed.

Section TrimmedSources.

Context {C : Collaborators}.
Variable cfg : Config.
Variable lines : list str.

Lemma flush_trimmed start_line token md cells cells' :
  markdown_sources_trimmed cells ->
  _flush_markdown cfg lines start_line token md cells = Return cells' ->
  markdown_sources_trimmed cells'.
Proof.
  intros H E. apply flush_return_inv in E as [[_ ->]|(Hne & _ & ->)]; [exact H|].
  apply Forall_app. split; [exact H|].
  constructor; [|constructor]. intros _. simpl. split; [exact Hne|]. split.
  - apply strip_blank_lines_head.
  - apply strip_blank_lines_no_trailing_space.
Qed.

Lemma step_trimmed st token st' :
  markdown_sources_trimmed (notebook_cells st) ->
  step cfg lines st token = Return st' ->
  markdown_sources_trimmed (notebook_cells st').
Proof.
  intros H E. apply step_inv in E as [_ Hcases].
  destruct Hcases
    as [[_ ->]
       |[(_ & _ & _ & _ & cells & cell & Hflush & Hcell & ->)
        |(_ & _ & _ & _ & cells & Hflush & _ & ->)]].
  - exact H.
  - apply Forall_app. split; [eapply flush_trimmed; eassumption|].
    constructor; [|constructor].
    destruct Hcell as (options & body & created & _ & ->). simpl.
    now destruct (is_code_fence cfg token).
  - eapply flush_trimmed; eassumption.
Qed.

Lemma scan_trimmed tokens : forall st st',
  markdown_sources_trimmed (notebook_cells st) ->
  scan cfg lines st tokens = Return st' ->
  markdown_sources_trimmed (notebook_cells st').
Proof.
  induction tokens as [|token rest IH]; intros st st' H E; simpl in E.
  - now injection E as <-.
  - destruct (step cfg lines st token) as [st1|e] eqn:Es; simpl in E; [|discriminate].
    eapply IH; [|exact E]. eapply step_trimmed; eassumption.
Qed.

End TrimmedSources.

(** C10: in every notebook the conversion returns, the source of each
    Markdown cell is not empty, does not begin with a newline and does not
    end in whitespace.  [strip_blank_lines] removes whitespace after the
    last line of content together with the blank lines that follow, and
    keeps a leading line of spaces. *)
Theorem C10_markdown_source_trimmed {C : Collaborators} (cfg : Config) (text : str) :
  (forall nb,
      myst_to_notebook cfg text = Return nb ->
      Forall (fun c =>
                cell_kind c = markdown ->
                source c <> []
                /\ startswith (source c) [NL] = false
                /\ (forall s c', source c = s ++ [c'] -> is_space c' = false))
             (cells nb))
  /\ (forall content w : str,
         forallb is_space w = true ->
         strip_blank_lines (content ++ w) = strip_blank_lines content)
  /\ (forall spaces content : str,
         spaces <> [] ->
         forallb (N.eqb 32) spaces = true ->
         rstrip content <> [] ->
         strip_blank_lines (spaces ++ [NL] ++ content)
         = spaces ++ [NL] ++ rstrip content).
Proof.
  repeat split.
  - intros nb H. destruct (myst_to_notebook_inv _ _ H) as (_ & _ & Hcells).
    unfold cells_from in Hcells.
    destruct (scan cfg (splitlines text) _ _) as [st|e] eqn:Es; [|discriminate].
    cbn [bind] in Hcells.
    apply (flush_trimmed _ _ _ _ _ (cells := notebook_cells st)) in Hcells;
      [exact Hcells|].
    eapply scan_trimmed; [|exact Es]. constructor.
  - intros content w. apply strip_blank_lines_app_space.
  - intros spaces content Hne Hsp Hc.
    destruct spaces as [|c spaces]; [contradiction|].
    cbn [forallb] in Hsp. apply andb_true_iff in Hsp as [Hc32 _].
    apply N.eqb_eq in Hc32. subst c.
    change ((32%N :: spaces) ++ [NL] ++ content)
      with (32%N :: (spaces ++ [NL] ++ content)).
    rewrite strip_blank_lines_keeps_head by reflexivity.
    change (32%N :: (spaces ++ [NL] ++ content))
      with ((32%N :: spaces) ++ [NL] ++ content).
    rewrite !app_assoc. now apply rstrip_app_nonempty.
Qed.

(** ** Determinism *)

(** Two runs that meet the same libraries, but for the ids drawn. *)
Section TwoLibraries.

Variables C1 C2 : Collaborators.
Hypothesis same : same_libraries_up_to_ids C1 C2.

Lemma same_cells_up_to_id_append kind a b src meta :
  Forall2 same_cell_up_to_id a b ->
  related_results (Forall2 same_cell_up_to_id)
    (cell <- @new_cell_of C1 kind (List.length a) src meta ;; Return (a ++ [cell]))
    (cell <- @new_cell_of C2 kind (List.length b) src meta ;; Return (b ++ [cell])).
Proof.
  intros R. destruct same as (_ & _ & _ & _ & Hv & _).
  unfold new_cell_of. rewrite <- Hv.
  destruct (@validate_cell C1 kind meta); cbn; [reflexivity|].
  apply Forall2_app; [exact R|]. constructor; [|constructor]. now repeat split.
Qed.

Lemma same_cells_append kind a src meta :
  (forall k, @random_cell_id C1 k = @random_cell_id C2 k) ->
  related_results eq
    (cell <- @new_cell_of C1 kind (List.length a) src meta ;; Return (a ++ [cell]))
    (cell <- @new_cell_of C2 kind (List.length a) src meta ;; Return (a ++ [cell])).
Proof.
  intros Hids. destruct same as (_ & _ & _ & _ & Hv & _).
  unfold new_cell_of. rewrite <- Hv, <- Hids.
  now destruct (@validate_cell C1 kind meta).
Qed.

End TwoLibraries.

(** C9, amended: the conversion is deterministic up to the ids of the
    cells.  Two runs on the same text, with the same directive names and
    line-tracking flag, that meet the same tokenizer, parsers and schema
    end in the same exception, or in notebooks with the same metadata
    and cells of the same types, sources and metadata, in the same
    order; the ids of the cells are those nbformat drew in each run.
    When the ids drawn agree - with an nbformat that gives cells no id,
    say - the two runs end in the same result. *)
Theorem C9_conversion_deterministic_up_to_ids (C1 C2 : Collaborators)
        (cfg : Config) (text : str) :
  same_libraries_up_to_ids C1 C2 ->
  same_up_to_ids (@myst_to_notebook C1 cfg text) (@myst_to_notebook C2 cfg text)
  /\ ((forall k, @random_cell_id C1 k = @random_cell_id C2 k) ->
      @myst_to_notebook C1 cfg text = @myst_to_notebook C2 cfg text).
Proof.
  intros Hsame. pose proof Hsame as (Hparse & Hyaml & Hjson & Hopt & Hcell & Hnb).
  split.
  - apply (@notebooks_related C1 C2 cfg cfg (splitlines text)
             (Forall2 same_cell_up_to_id)); auto.
    + intros a b. apply Forall2_length.
    + intros. now apply same_cells_up_to_id_append.
    + intros. now apply same_cells_up_to_id_append.
  - intros Hids.
    assert (R : related_results
                  (fun nb1 nb2 => nb_metadata nb1 = nb_metadata nb2
                                  /\ cells nb1 = cells nb2)
                  (@myst_to_notebook C1 cfg text) (@myst_to_notebook C2 cfg text)).
    { apply (@notebooks_related C1 C2 cfg cfg (splitlines text) eq); auto.
      - now intros a b ->.
      - intros a b ? ? ? ? ->. now apply same_cells_append.
      - intros kind a b ? ? ? ->. now apply same_cells_append. }
    destruct (@myst_to_notebook C1 cfg text) as [[m1 c1]|e1];
      destruct (@myst_to_notebook C2 cfg text) as [[m2 c2]|e2];
      cbn in R; try contradiction.
    + destruct R as [-> ->]. reflexivity.
    + now rewrite R.
Qed.

(** * The properties on the sample documents *)

Section OnSamples.

Import Samples.


(** C2, as stated, fails on a paragraph indented by one space: the cell
    keeps the space that trimming the input removes. *)
Lemma C2_counterexample :
  top_level_directive_fences default_config 0 (@parse libraries (indented_text ++ [NL])) = []
  /\ break_tokens (@parse libraries (indented_text ++ [NL])) = []
  /\ @myst_to_notebook libraries default_config indented_text
     = Return (new_notebook (PDict []) [new_cell markdown None (u " hello") []])
  /\ strip indented_text = u "hello"
  /\ u " hello" <> strip indented_text.
Proof.
  repeat split; try reflexivity. vm_compute. discriminate.
Qed.

Lemma C2_witness :
  @myst_to_notebook libraries default_config indented_text = Return indented_notebook.
Proof.
  apply (@C2_plain_markdown_single_cell libraries default_config indented_text
           (tok "paragraph_open" 1 [] (0, 1))
           [ tok "inline" 0 (u "hello") (0, 1);
             tok "paragraph_close" (-1) [] no_map ]);
    reflexivity.
Defined.

(** C3, as stated, fails on a document whose first break gives the
    Markdown cell a string for its tags: the second break ends in a
    trailing comma, and the conversion ends in the validation error of
    the flush before that break is read, not in a metadata error. *)
Lemma C3_counterexample :
  is_break late_break = true
  /\ @json_loads libraries (strip (Token.content late_break))
     = inl json_trailing_comma_error
  /\ @scan libraries default_config tagged_break_lines start
           ([tagged_break] ++ paragraph "hello" 2)
     = Return before_late_break
  /\ @myst_to_notebook libraries default_config tagged_break_text
     = Raise (NotebookValidationError (tags_message markdown (u "x")))
  /\ forall msg,
      @myst_to_notebook libraries default_config tagged_break_text
      <> Raise (MystMetadataParsingError msg).
Proof.
  repeat split; try reflexivity. intros msg H. vm_compute in H. discriminate H.
Qed.

(** C3 on the document whose break ends in a trailing comma. *)
Lemma C3_witness :
  @scan libraries default_config bad_break_lines start (bad_break :: paragraph "more" 4)
  = Raise (MystMetadataParsingError bad_break_message).
Proof.
  assert (Hb : is_break bad_break = true) by reflexivity.
  destruct (@C3_break_metadata libraries default_config bad_break_lines start bad_break
              Hb) as [_ Hzero].
  destruct (Hzero eq_refl) as [_ Hflushed].
  destruct (Hflushed [ new_cell markdown None (u "intro") [] ] eq_refl)
    as [_ Hcontent].
  assert (Hne : Token.content bad_break <> []) by discriminate.
  destruct (Hcontent Hne) as (_ & Herr & _).
  exact (Herr json_trailing_comma_error (paragraph "more" 4) eq_refl).
Defined.


(** C5, as stated, fails on front matter with the dialect tag and no
    kernelspec: the exception is an [IOError]. *)
Lemma C5_counterexample :
  lookup_path tagged_front_matter
              [u "jupytext"; u "text_representation"; u "format_name"]
  = Some (PStr (u "myst"))
  /\ lookup_path tagged_front_matter [u "kernelspec"; u "name"] = None
  /\ @is_myst_notebook libraries tagged_text = Raise (IOError missing_name_message)
  /\ forall msg,
      @is_myst_notebook libraries tagged_text <> Raise (MystMetadataParsingError msg).
Proof.
  repeat split; try reflexivity. intros msg H. vm_compute in H. discriminate H.
Qed.

Lemma C5_witness :
  @is_myst_notebook libraries tagged_text = Raise (IOError missing_name_message).
Proof.
  assert (Hb : front_matter_block tagged_text = Some (join [NL] tagged_yaml_lines))
    by reflexivity.
  assert (Hy : @yaml_safe_load libraries (join [NL] tagged_yaml_lines)
               = YamlValue tagged_front_matter) by reflexivity.
  destruct (@C5_missing_kernelspec_raises_IOError libraries tagged_text
              (join [NL] tagged_yaml_lines) _ [] Hb Hy eq_refl eq_refl)
    as [Hname _].
  exact (Hname eq_refl).
Defined.

(** C6 on front matter that is not YAML. *)
Lemma C6_witness :
  @is_myst_notebook libraries bad_yaml_text = Raise (YAMLError ParserError bad_yaml_error).
Proof.
  apply (@C6_malformed_front_matter_raises libraries bad_yaml_text bad_yaml);
    reflexivity.
Defined.

(** C7, as stated, fails on the same front matter: the message of the
    conversion's error names no cell and no line. *)
Lemma C7_counterexample :
  @myst_to_notebook libraries default_config bad_yaml_text
  = Raise (MystMetadataParsingError (u "Notebook metadata: " ++ bad_yaml_error))
  /\ ~ names_cell_and_line (u "Notebook metadata: " ++ bad_yaml_error).
Proof.
  split; [reflexivity|].
  intros (cell_type & cell_index & line & rest & H).
  apply (f_equal (fun m => str_contains m (u " cell "))) in H.
  rewrite str_contains_app in H. vm_compute in H. discriminate H.
Qed.

(** C7 on the code cell whose options are not YAML. *)
Lemma C7_witness :
  @metadata_error_shape libraries default_config bad_fence_text bad_fence_message.
Proof.
  apply C7_metadata_error_messages. reflexivity.
Defined.

(** C8, as stated, fails on a run that opens with a line of one space:
    the line is blank and the flush keeps it. *)
Lemma C8_counterexample :
  is_blank_line (u " ") = true
  /\ @_flush_markdown libraries default_config spaced_lines 0 None [] []
     = Return [ new_cell markdown None (u " " ++ [NL] ++ u "hello") [] ]
  /\ spec_flush_source spaced_lines 0 2 = u "hello"
  /\ flush_source spaced_lines 0 None <> spec_flush_source spaced_lines 0 2.
Proof.
  repeat split; try reflexivity. vm_compute. discriminate.
Qed.

Lemma C8_witness :
  @_flush_markdown libraries default_config spaced_lines 0 None [] []
  = Return [ new_cell markdown None (u " " ++ [NL] ++ u "hello") [] ].
Proof.
  destruct (@C8_flush_markdown libraries default_config spaced_lines 0 None [] [])
    as (_ & _ & _ & Hcell & _).
  apply Hcell; [discriminate | reflexivity].
Defined.

(** C9, as stated, fails with an nbformat that draws the ids of new
    cells at random: two runs on the list document, alike in all but the
    ids drawn, return notebooks that differ. *)
Lemma C9_counterexample :
  same_libraries_up_to_ids (libraries_of first_run_ids) (libraries_of second_run_ids)
  /\ @myst_to_notebook (libraries_of first_run_ids) default_config nested_text
     = Return (new_notebook (PDict []) (nested_cells first_run_ids))
  /\ @myst_to_notebook (libraries_of second_run_ids) default_config nested_text
     = Return (new_notebook (PDict []) (nested_cells second_run_ids))
  /\ @myst_to_notebook (libraries_of first_run_ids) default_config nested_text
     <> @myst_to_notebook (libraries_of second_run_ids) default_config nested_text.
Proof.
  split; [unfold same_libraries_up_to_ids; repeat split|].
  split; [reflexivity|]. split; [reflexivity|].
  intros H. vm_compute in H. discriminate H.
Qed.

Lemma C9_witness :
  same_up_to_ids
    (@myst_to_notebook (libraries_of first_run_ids) default_config nested_text)
    (@myst_to_notebook (libraries_of second_run_ids) default_config nested_text).
Proof.
  assert (Hsame : same_libraries_up_to_ids (libraries_of first_run_ids)
                                           (libraries_of second_run_ids))
    by (unfold same_libraries_up_to_ids; repeat split).
  exact (proj1 (@C9_conversion_deterministic_up_to_ids
                  (libraries_of first_run_ids) (libraries_of second_run_ids)
                  default_config nested_text Hsame)).
Defined.

Lemma C10_witness :
  Forall (fun c => cell_kind c = markdown -> trimmed_source (source c))
         (cells nested_notebook)
  /\ strip_blank_lines (u "text  " ++ [NL; NL]) = u "text"
  /\ strip_blank_lines (u "  " ++ [NL] ++ u "text") = u "  " ++ [NL] ++ u "text".
Proof.
  destruct (@C10_markdown_source_trimmed libraries default_config nested_text)
    as (Hcells & Htrail & Hlead).
  split; [exact (Hcells nested_notebook eq_refl)|]. split.
  - change (u "text  " ++ [NL; NL]) with (u "text" ++ (u "  " ++ [NL; NL])).
    rewrite Htrail; reflexivity.
  - assert (H1 : u "  " <> []) by discriminate.
    assert (H2 : rstrip (u "text") <> []) by (vm_compute; discriminate).
    exact (Hlead (u "  ") (u "text") H1 eq_refl H2).
Defined.

End OnSamples.

(** * Further properties of the converter *)

(** ** [strip_blank_lines] *)

(** X1: [strip_blank_lines] is idempotent: stripping a stripped text
    changes nothing. *)
Theorem X1_strip_blank_lines_idempotent (text : str) :
  strip_blank_lines (strip_blank_lines text) = strip_blank_lines text.
Proof.
  unfold strip_blank_lines at 1.
  rewrite rstrip_fixed by apply strip_blank_lines_no_trailing_space.
  apply drop_leading_newlines_fixed, strip_blank_lines_head.
Qed.

(** X2: [strip_blank_lines] returns the empty string exactly on the texts
    made of whitespace only; so a markdown flush appends no cell exactly
    when every line of its range is blank. *)
Theorem X2_strip_blank_lines_empty_iff_blank {C : Collaborators} :
  (forall text,
      strip_blank_lines text = [] <-> forallb is_space text = true)
  /\ (forall cfg lines start_line token pending cells,
         _flush_markdown cfg lines start_line token pending cells = Return cells
         <-> forallb is_blank_line (slice lines start_line (endline_of lines token))
             = true).
Proof.
  split; [apply strip_blank_lines_empty_iff|].
  intros cfg lines start_line token pending cells.
  change (forallb is_blank_line (slice lines start_line (endline_of lines token)))
    with (forallb (forallb is_space) (slice lines start_line (endline_of lines token))).
  rewrite <- forallb_is_space_join, <- strip_blank_lines_empty_iff.
  fold (md_source lines start_line (endline_of lines token)).
  fold (flush_source lines start_line token).
  split.
  - intros H. apply flush_return_inv in H as [[E _]|(_ & _ & E)]; [exact E|].
    apply (f_equal (@List.length Cell)) in E. rewrite length_app in E.
    simpl in E. lia.
  - apply flush_empty.
Qed.

(** ** The lines of the text *)

(** X3: for a text whose only line boundary is the newline character, the
    markdown flush over the whole document (lines 0 to the end, of
    [text.splitlines()], joined again) has as its source
    [strip_blank_lines] of the text itself. *)
Theorem X3_whole_document_source (text : str) :
  only_newline_breaks text ->
  flush_source (splitlines text) 0 None = strip_blank_lines text.
Proof.
  intros H. unfold flush_source, md_source, endline_of. rewrite slice_all.
  destruct (join_splitlines_from [] H) as (w & Hw & Hcases).
  simpl in Hw. fold (splitlines text) in Hw.
  transitivity (strip_blank_lines (join [NL] (splitlines text) ++ w)).
  - symmetry. apply strip_blank_lines_app_space.
    destruct Hcases as [->| ->]; reflexivity.
  - now rewrite <- Hw.
Qed.

(** X4: a flush whose range is empty appends nothing: when the end line is
    not after the start line (a fence or break that follows directly on
    another, or opens the document), or when the start line is past the
    last line of the text. *)
Theorem X4_flush_empty_range {C : Collaborators} (cfg : Config) (lines : list str)
        (start_line : nat) (token : option Token.t) (pending : dict)
        (cells : list Cell) :
  endline_of lines token <= start_line \/ List.length lines <= start_line ->
  _flush_markdown cfg lines start_line token pending cells = Return cells.
Proof.
  intros H. apply flush_empty. unfold flush_source, md_source, slice.
  destruct H as [H|H].
  - replace (endline_of lines token - start_line) with 0 by lia. reflexivity.
  - rewrite skipn_all2 by exact H. now rewrite firstn_nil.
Qed.

(** ** The cell list during the scan *)

Section ScanGrowth.

Context {C : Collaborators}.
Variable cfg : Config.
Variable lines : list str.

Lemma scan_grows_bound tokens : forall st st',
  scan cfg lines st tokens = Return st' ->
  exists new,
    notebook_cells st' = notebook_cells st ++ new
    /\ List.length new <= 2 * top_level_boundaries cfg (nesting_level st) tokens.
Proof.
  induction tokens as [|token rest IH]; intros st st' H; simpl in H.
  - injection H as <-. exists []. split; [now rewrite app_nil_r | simpl; lia].
  - destruct (step cfg lines st token) as [st1|e] eqn:E; simpl in H; [|discriminate].
    destruct (IH _ _ H) as (new & Hnew & Hlen).
    apply step_inv in E as [Hlevel Hcases]. rewrite Hlevel in Hlen.
    cbn [top_level_boundaries].
    destruct Hcases
      as [[Hskip ->]
         |[(Hl & Hf & _ & _ & cells & cell & Hflush & _ & Hcells)
          |(Hl & Hf & Hb & _ & cells & Hflush & _ & Hcells)]].
    + exists new. split; [exact Hnew|].
      destruct ((nesting_level st + Token.nesting token =? 0)%Z
                && is_boundary cfg token); lia.
    + apply flush_grows in Hflush as (md & -> & Hmdlen).
      exists (md ++ [cell] ++ new). split.
      * rewrite Hnew, Hcells. now rewrite <- !app_assoc.
      * unfold is_boundary. rewrite Hl in Hlen |- *. rewrite Hf.
        simpl Z.eqb. cbn [andb orb]. rewrite !length_app. simpl. lia.
    + apply flush_grows in Hflush as (md & -> & Hmdlen).
      exists (md ++ new). split.
      * rewrite Hnew, Hcells. now rewrite <- app_assoc.
      * unfold is_boundary. rewrite Hl in Hlen |- *. rewrite Hf, Hb.
        simpl Z.eqb. cbn [andb orb]. rewrite length_app. lia.
Qed.

End ScanGrowth.

(** X5: the scan only appends.  The cells it starts with are kept, in
    place and unchanged, and at most two cells are added for each fence or
    document break met at top level; a notebook has at most one cell more,
    from the last flush. *)
Theorem X5_cells_are_appended {C : Collaborators} (cfg : Config) (text : str) :
  (forall st tokens st',
      scan cfg (splitlines text) st tokens = Return st' ->
      exists new,
        notebook_cells st' = notebook_cells st ++ new
        /\ List.length new
           <= 2 * top_level_boundaries cfg (nesting_level st) tokens)
  /\ (forall nb,
         myst_to_notebook cfg text = Return nb ->
         List.length (cells nb)
         <= 2 * top_level_boundaries cfg 0 (scanned_tokens (parse (text ++ [NL]))) + 1).
Proof.
  split.
  - intros st tokens st'. apply scan_grows_bound.
  - intros nb H. destruct (myst_to_notebook_inv _ _ H) as (_ & _ & Hcells).
    unfold cells_from in Hcells.
    destruct (scan cfg (splitlines text) _ _) as [st|e] eqn:Es; [|discriminate].
    cbn [bind] in Hcells.
    apply scan_grows_bound in Es as (new & Hnew & Hlen).
    apply flush_grows in Hcells as (last & -> & Hlast).
    rewrite Hnew. cbn [initial_state notebook_cells nesting_level] in Hlen |- *.
    rewrite !length_app. simpl. lia.
Qed.

(** X6: the nesting level the scan ends at is the level it starts at plus
    the nesting deltas of all tokens: tokens that are skipped, and tokens
    that open a cell, count like any other. *)
Theorem X6_nesting_level_is_running_sum {C : Collaborators} (cfg : Config)
        (lines : list str) (st st' : State) (tokens : list Token.t) :
  scan cfg lines st tokens = Return st' ->
  nesting_level st' = level_after (nesting_level st) tokens.
Proof. apply scan_level. Qed.

(** ** Line tracking *)

Lemma cell_shapes_app (a b : list Cell) :
  cell_shapes (a ++ b) = cell_shapes a ++ cell_shapes b.
Proof. apply map_app. Qed.

Lemma cell_shapes_length (a b : list Cell) :
  cell_shapes a = cell_shapes b -> List.length a = List.length b.
Proof.
  intros H. apply (f_equal (@List.length _)) in H.
  unfold cell_shapes in H. now rewrite !length_map in H.
Qed.

(** X8: line tracking changes metadata only.  With the flag
    [store_line_numbers] set either way, the conversion of a text ends in
    the same exception, or in notebooks with the same document metadata
    and the same cells by type and source, in the same order. *)
Theorem X8_line_tracking_changes_metadata_only {C : Collaborators} (cfg : Config)
        (flag : bool) (text : str) :
  same_up_to_metadata (myst_to_notebook cfg text)
                      (myst_to_notebook (with_line_numbers cfg flag) text).
Proof.
  assert (Hcell : forall kind a b src meta meta',
             validate_cell kind meta = validate_cell kind meta' ->
             cell_shapes a = cell_shapes b ->
             related_results (fun a b => cell_shapes a = cell_shapes b)
               (cell <- new_cell_of kind (List.length a) src meta ;;
                Return (a ++ [cell]))
               (cell <- new_cell_of kind (List.length b) src meta' ;;
                Return (b ++ [cell]))).
  { intros kind a b src meta meta' Hv R. unfold new_cell_of. rewrite <- Hv.
    destruct (validate_cell kind meta); cbn; [reflexivity|].
    rewrite !cell_shapes_app. now rewrite R. }
  apply (@notebooks_related C C cfg (with_line_numbers cfg flag) (splitlines text)
           (fun a b => cell_shapes a = cell_shapes b)); auto.
  - exact cell_shapes_length.
  - intros. apply Hcell; [|assumption]. now rewrite !validate_markdown_metadata.
  - intros. apply Hcell; [|assumption]. now rewrite !validate_fenced_metadata.
Qed.

(** X9: what line tracking adds.  When a conversion without line tracking
    returns a notebook, the conversion with [store_line_numbers] set
    returns the same notebook with, in every cell, the key
    [_source_lines] set to a pair of line numbers (replacing a value the
    cell's own metadata gave that key) and nothing else changed. *)
Theorem X9_line_tracking_sets_source_lines {C : Collaborators} (cfg : Config)
        (text : str) (nb : Notebook) :
  store_line_numbers cfg = false ->
  myst_to_notebook cfg text = Return nb ->
  exists nb',
    myst_to_notebook (with_line_numbers cfg true) text = Return nb'
    /\ nb_metadata nb' = nb_metadata nb
    /\ Forall2 adds_source_lines (cells nb) (cells nb')
    /\ Forall has_source_lines (cells nb').
Proof.
  intros Hflag H.
  assert (Hcell : forall kind a b src meta x y,
             Forall2 adds_source_lines a b ->
             related_results (Forall2 adds_source_lines)
               (cell <- new_cell_of kind (List.length a) src meta ;;
                Return (a ++ [cell]))
               (cell <- new_cell_of kind (List.length b) src
                                    (dict_set meta (u "_source_lines")
                                              (source_lines x y)) ;;
                Return (b ++ [cell]))).
  { intros kind a b src meta x y R. unfold new_cell_of.
    rewrite validate_cell_source_lines, <- (Forall2_length R).
    destruct (validate_cell kind meta); cbn; [reflexivity|].
    apply Forall2_app; [exact R|]. constructor; [|constructor].
    repeat split. now exists x, y. }
  assert (R : related_results
                (fun nb1 nb2 => nb_metadata nb1 = nb_metadata nb2
                                /\ Forall2 adds_source_lines (cells nb1) (cells nb2))
                (myst_to_notebook cfg text)
                (myst_to_notebook (with_line_numbers cfg true) text)).
  { apply (@notebooks_related C C cfg (with_line_numbers cfg true) (splitlines text)
             (Forall2 adds_source_lines)); auto.
    - intros a b. apply Forall2_length.
    - intros. unfold markdown_metadata. rewrite Hflag. cbn [store_line_numbers
        with_line_numbers]. now apply Hcell.
    - intros. unfold fenced_metadata. rewrite Hflag. cbn [store_line_numbers
        with_line_numbers]. now apply Hcell. }
  rewrite H in R.
  destruct (myst_to_notebook (with_line_numbers cfg true) text) as [nb'|e];
    [|contradiction].
  cbn in R. destruct R as [Hmeta Hcells].
  exists nb'. split; [reflexivity|]. split; [now symmetry|]. split; [exact Hcells|].
  induction Hcells as [|c c' l l' (_ & _ & _ & x & y & Hm) _ IH]; constructor;
    [|exact IH].
  exists x, y. rewrite Hm. apply dict_lookup_set.
Qed.

(** ** The ends of the token stream *)

(** X10: an empty token stream, which is what the tokenizer returns for a
    blank document, makes the conversion raise [IndexError]: the first
    token is read before the stream is known to have one. *)
Theorem X10_empty_token_stream_raises {C : Collaborators} (cfg : Config) (text : str) :
  parse (text ++ [NL]) = [] ->
  myst_to_notebook cfg text = Raise IndexError.
Proof.
  intros H. unfold myst_to_notebook, notebook_of_tokens. now rewrite H.
Qed.

(** X11: the metadata of the notebook is the object the YAML parser
    returns for the content of a leading front-matter token, and the
    empty map when the first token is of another type; in both cases
    nbformat has accepted it. *)
Theorem X11_notebook_metadata {C : Collaborators} (cfg : Config) (text : str)
        (nb : Notebook) :
  myst_to_notebook cfg text = Return nb ->
  validate_notebook (nb_metadata nb) = None
  /\ exists first rest,
      parse (text ++ [NL]) = first :: rest
      /\ (str_eqb (Token.type first) (u "front_matter") = true ->
          yaml_safe_load (Token.content first) = YamlValue (nb_metadata nb))
      /\ (str_eqb (Token.type first) (u "front_matter") = false ->
          nb_metadata nb = PDict []).
Proof.
  intros H. destruct (myst_to_notebook_inv _ _ H) as (Hfm & Hv & _).
  split; [exact Hv|]. unfold read_front_matter in Hfm.
  destruct (parse (text ++ [NL])) as [|first rest]; [discriminate|].
  exists first, rest. split; [reflexivity|].
  destruct (str_eqb (Token.type first) (u "front_matter")).
  - destruct (yaml_safe_load (Token.content first)) as [v|[| |] msg];
      try discriminate.
    injection Hfm as _ <- _. split; [reflexivity | discriminate].
  - injection Hfm as _ <- _. split; [discriminate | reflexivity].
Qed.

(** ** What the dialect detector accepts *)

Section Accepts.

Context {C : Collaborators}.

(** With the dialect tag in place, the kernelspec checks are what is left. *)
Lemma is_myst_notebook_tagged text block front_matter :
  front_matter_block text = Some block ->
  yaml_safe_load block = YamlValue (PDict front_matter) ->
  lookup_path (PDict front_matter)
              [u "jupytext"; u "text_representation"; u "format_name"]
  = Some (PStr (u "myst")) ->
  is_myst_notebook text
  = (has_name <- py_in (u "name") (get_or front_matter (u "kernelspec") (PDict [])) ;;
     if negb has_name then
       Raise (IOError (u "A myst notebook text-representation requires kernelspec/name metadata"))
     else
       has_display_name <-
         py_in (u "display_name") (get_or front_matter (u "kernelspec") (PDict [])) ;;
       if negb has_display_name then
         Raise (IOError (u "A myst notebook text-representation requires kernelspec/display_name metadata"))
       else Return true).
Proof.
  intros Hb Hy Hf.
  apply lookup_path_format in Hf as (jupytext & text_representation & Hj & Ht & Hn).
  rewrite (is_myst_notebook_block _ Hb). unfold safe_load. rewrite Hy.
  cbn [bind py_get]. rewrite Hj. cbn [bind py_get]. rewrite Ht.
  cbn [bind py_get]. rewrite Hn.
  replace (py_eq_str (PStr (u "myst")) (u "myst")) with true by reflexivity.
  reflexivity.
Qed.

Lemma is_myst_notebook_accepted_inv text :
  is_myst_notebook text = Return true ->
  exists block front_matter,
    front_matter_block text = Some block
    /\ yaml_safe_load block = YamlValue (PDict front_matter)
    /\ lookup_path (PDict front_matter)
                   [u "jupytext"; u "text_representation"; u "format_name"]
       = Some (PStr (u "myst"))
    /\ py_in (u "name") (get_or front_matter (u "kernelspec") (PDict [])) = Return true
    /\ py_in (u "display_name") (get_or front_matter (u "kernelspec") (PDict []))
       = Return true.
Proof.
  intros H. destruct (front_matter_block text) as [block|] eqn:Eb.
  2:{ rewrite (is_myst_notebook_no_front_matter _ Eb) in H. discriminate. }
  rewrite (is_myst_notebook_block _ Eb) in H. unfold safe_load in H.
  exists block.
  destruct (yaml_safe_load block) as [v|cls msg]; cbn [bind] in H; [|discriminate].
  destruct v as [| | | | | |front_matter]; cbn [bind py_get] in H; try discriminate.
  exists front_matter. split; [reflexivity|]. split; [reflexivity|].
  cbn [lookup_path].
  fold (get_or front_matter (u "kernelspec") (PDict [])) in H.
  destruct (dict_lookup front_matter (u "jupytext")) as [[| | | | | |jupytext]|];
    cbn [bind py_get dict_lookup negb py_eq_str] in H; try discriminate.
  destruct (dict_lookup jupytext (u "text_representation"))
    as [[| | | | | |text_representation]|];
    cbn [bind py_get dict_lookup negb py_eq_str] in H; try discriminate.
  destruct (dict_lookup text_representation (u "format_name")) as [format_name|];
    cbn [bind py_get dict_lookup negb py_eq_str] in H; try discriminate.
  destruct (py_eq_str format_name (u "myst")) eqn:Ef; cbn [negb] in H;
    [|discriminate].
  destruct format_name; try discriminate Ef. apply str_eqb_eq in Ef. subst s.
  split; [reflexivity|].
  destruct (py_in (u "name") _) as [[|]|e]; cbn [bind negb] in H; try discriminate.
  destruct (py_in (u "display_name") _) as [[|]|e]; cbn [bind negb] in H;
    try discriminate.
  now split.
Qed.

End Accepts.

(** X12: [is_myst_notebook] returns [True] exactly when the first line
    starts with [---], the lines up to the next [---] or [...] line parse
    as a YAML map whose [jupytext.text_representation.format_name] is
    ["myst"], and both ["name"] and ["display_name"] are [in] its
    [kernelspec] entry. *)
Theorem X12_accepted_documents {C : Collaborators} (text : str) :
  is_myst_notebook text = Return true
  <-> exists block front_matter,
      front_matter_block text = Some block
      /\ yaml_safe_load block = YamlValue (PDict front_matter)
      /\ lookup_path (PDict front_matter)
                     [u "jupytext"; u "text_representation"; u "format_name"]
         = Some (PStr (u "myst"))
      /\ py_in (u "name") (get_or front_matter (u "kernelspec") (PDict []))
         = Return true
      /\ py_in (u "display_name") (get_or front_matter (u "kernelspec") (PDict []))
         = Return true.
Proof.
  split.
  - apply is_myst_notebook_accepted_inv.
  - intros (block & front_matter & Hb & Hy & Hf & Hn & Hd).
    rewrite (is_myst_notebook_tagged _ Hb Hy Hf), Hn. cbn [bind negb].
    now rewrite Hd.
Qed.

(** X13: a front matter that YAML reads as something other than a map (an
    empty block is read as [None], a single word as a string) makes
    [is_myst_notebook] raise [AttributeError]: the value has no [get]. *)
Theorem X13_front_matter_not_a_map {C : Collaborators} (text block : str) (v : pyval) :
  front_matter_block text = Some block ->
  yaml_safe_load block = YamlValue v ->
  (forall d, v <> PDict d) ->
  is_myst_notebook text = Raise AttributeError.
Proof.
  intros Hb Hy Hv. rewrite (is_myst_notebook_block _ Hb).
  unfold safe_load. rewrite Hy. cbn [bind].
  destruct v; try reflexivity. now elim (Hv d).
Qed.

(** X14: a [kernelspec] entry that is not a map is tested with [in] all
    the same.  A string that contains ["display_name"] passes both tests
    (["name"] is part of it) and the document is accepted; [None], a
    boolean or a number makes the test raise [TypeError]. *)
Theorem X14_kernelspec_not_a_map {C : Collaborators} (text block : str)
        (front_matter : dict) (kernelspec : pyval) :
  front_matter_block text = Some block ->
  yaml_safe_load block = YamlValue (PDict front_matter) ->
  lookup_path (PDict front_matter)
              [u "jupytext"; u "text_representation"; u "format_name"]
  = Some (PStr (u "myst")) ->
  dict_lookup front_matter (u "kernelspec") = Some kernelspec ->
  (forall s,
      kernelspec = PStr s ->
      str_contains s (u "display_name") = true ->
      is_myst_notebook text = Return true)
  /\ (kernelspec = PNone
      \/ (exists b, kernelspec = PBool b)
      \/ (exists z, kernelspec = PInt z)
      \/ (exists literal, kernelspec = PFloat literal) ->
      is_myst_notebook text = Raise TypeError).
Proof.
  intros Hb Hy Hf Hk. rewrite (is_myst_notebook_tagged _ Hb Hy Hf).
  unfold get_or. rewrite Hk. split.
  - intros s -> Hs. cbn [py_in bind].
    assert (Hname : str_contains s (u "name") = true).
    { apply str_contains_iff in Hs as (a & b & ->).
      apply str_contains_iff. exists (a ++ u "display_"), b.
      now rewrite <- app_assoc. }
    now rewrite Hname, Hs.
  - intros [->|[[b ->]|[[z ->]|[literal ->]]]]; reflexivity.
Qed.

(** ** The readers *)

(** X17: a markdown document that does not open with a [---] line.
    [string_to_notebook], for a path without the ipynb extension, returns
    [None]: the text is not converted.  [path_to_notebook], for such a
    path, makes no such test: it converts the text of the file. *)
Theorem X17_plain_markdown_readers {C : Collaborators} {H : Host}
        (text path : str) (env : Env) :
  str_eqb (snd (splitext (doc2path env (docname env)))) (u ".ipynb") = false ->
  str_eqb (snd (splitext path)) (u ".ipynb") = false ->
  read_text path = inr text ->
  front_matter_block text = None ->
  string_to_notebook text env = Value None
  /\ path_to_notebook path = converted (myst_to_notebook default_config text).
Proof.
  intros He Hp Hr Hb. unfold string_to_notebook, path_to_notebook.
  rewrite He, Hp, Hr, (is_myst_notebook_no_front_matter _ Hb). now split.
Qed.

(** X18: [string_to_notebook] returns a converted notebook only for a text
    the dialect detector accepts: its front matter is a map with the
    dialect tag and with both names in the kernelspec entry; and the
    notebook is the one [myst_to_notebook] builds with the default
    directive names and without line tracking. *)
Theorem X18_converted_only_when_accepted {C : Collaborators} {H : Host}
        (text : str) (env : Env) (nb : Notebook) :
  string_to_notebook text env = Value (Some (Myst nb)) ->
  myst_to_notebook default_config text = Return nb
  /\ exists block front_matter,
      front_matter_block text = Some block
      /\ yaml_safe_load block = YamlValue (PDict front_matter)
      /\ lookup_path (PDict front_matter)
                     [u "jupytext"; u "text_representation"; u "format_name"]
         = Some (PStr (u "myst"))
      /\ py_in (u "name") (get_or front_matter (u "kernelspec") (PDict []))
         = Return true
      /\ py_in (u "display_name") (get_or front_matter (u "kernelspec") (PDict []))
         = Return true.
Proof.
  unfold string_to_notebook.
  destruct (str_eqb _ (u ".ipynb")).
  { destruct (nbf_reads text); discriminate. }
  destruct (is_myst_notebook text) as [[|]|e] eqn:E; try discriminate.
  destruct (myst_to_notebook default_config text) as [nb'|e]; [|discriminate].
  intros Hv. injection Hv as <-. split; [reflexivity|].
  now apply is_myst_notebook_accepted_inv.
Qed.

(** ** The exceptions of a conversion *)

Section Exceptions.

Context {C : Collaborators}.
Variable cfg : Config.
Variable lines : list str.




End Exceptions.


(** X20: a front matter whose YAML value nbformat does not accept as the
    metadata of a notebook - an empty front matter, which YAML reads as
    [None], is one - makes the conversion raise the
    [NotebookValidationError] of [new_notebook]: no token is scanned and
    no cell is created. *)
Theorem X20_rejected_notebook_metadata {C : Collaborators} (cfg : Config)
        (text : str) (first : Token.t) (rest : list Token.t) (v : pyval)
        (msg : str) :
  parse (text ++ [NL]) = first :: rest ->
  str_eqb (Token.type first) (u "front_matter") = true ->
  yaml_safe_load (Token.content first) = YamlValue v ->
  validate_notebook v = Some msg ->
  myst_to_notebook cfg text = Raise (NotebookValidationError msg).
Proof.
  intros Hp Hfm Hy Hv. unfold myst_to_notebook, notebook_of_tokens.
  rewrite Hp. unfold read_front_matter. rewrite Hfm, Hy. cbn [bind].
  unfold new_notebook_metadata. now rewrite Hv.
Qed.

(** * The further properties on the sample documents *)

Section OnMoreSamples.

Import Samples.

Lemma X3_witness :
  flush_source (splitlines MoreSamples.two_lines) 0 None
  = strip_blank_lines MoreSamples.two_lines.
Proof.
  apply X3_whole_document_source.
  intros c Hin Hc. vm_compute in Hin.
  repeat (destruct Hin as [<-|Hin]; [first [reflexivity | discriminate Hc]|]).
  contradiction.
Defined.

Lemma X4_witness :
  @_flush_markdown libraries default_config nested_lines 9 (Some top_fence) [] []
  = Return [].
Proof.
  apply X4_flush_empty_range. left. vm_compute. lia.
Defined.

Lemma X5_witness :
  List.length (cells nested_notebook)
  <= 2 * top_level_boundaries default_config 0
           (scanned_tokens (@parse libraries (nested_text ++ [NL]))) + 1.
Proof.
  destruct (@X5_cells_are_appended libraries default_config nested_text)
    as [_ Hbound].
  exact (Hbound nested_notebook eq_refl).
Defined.

Lemma X6_witness :
  nesting_level inside_item
  = level_after (nesting_level start) (firstn 5 nested_tokens).
Proof.
  apply (@X6_nesting_level_is_running_sum libraries default_config nested_lines).
  reflexivity.
Defined.

Lemma X9_witness :
  exists nb',
    @myst_to_notebook libraries MoreSamples.tracking nested_text = Return nb'
    /\ nb_metadata nb' = nb_metadata nested_notebook
    /\ Forall2 adds_source_lines (cells nested_notebook) (cells nb')
    /\ Forall has_source_lines (cells nb').
Proof.
  apply (@X9_line_tracking_sets_source_lines libraries default_config nested_text);
    reflexivity.
Defined.

Lemma X10_witness :
  @myst_to_notebook libraries default_config [] = Raise IndexError.
Proof.
  apply X10_empty_token_stream_raises. reflexivity.
Defined.

Lemma X11_witness :
  @yaml_safe_load MoreSamples.libraries MoreSamples.notebook_yaml
  = YamlValue (nb_metadata MoreSamples.notebook_result).
Proof.
  destruct (@X11_notebook_metadata MoreSamples.libraries default_config
              MoreSamples.notebook_text MoreSamples.notebook_result eq_refl)
    as (_ & first & rest & Hp & Hfm & _).
  change (MoreSamples.notebook_tokens = first :: rest) in Hp.
  injection Hp as <- _. exact (Hfm eq_refl).
Defined.

Lemma X12_witness :
  @is_myst_notebook MoreSamples.libraries MoreSamples.notebook_text = Return true.
Proof.
  apply X12_accepted_documents.
  exists MoreSamples.notebook_yaml, MoreSamples.notebook_front_matter.
  repeat split.
Defined.

Lemma X13_witness :
  @is_myst_notebook MoreSamples.libraries MoreSamples.empty_front_matter_text
  = Raise AttributeError.
Proof.
  apply (@X13_front_matter_not_a_map MoreSamples.libraries
           MoreSamples.empty_front_matter_text [] PNone);
    [reflexivity | reflexivity | discriminate].
Defined.

Lemma X14_witness :
  @is_myst_notebook MoreSamples.libraries MoreSamples.string_kernelspec_text
  = Return true.
Proof.
  destruct (@X14_kernelspec_not_a_map MoreSamples.libraries
              MoreSamples.string_kernelspec_text
              (join [NL] MoreSamples.string_kernelspec_lines)
              MoreSamples.string_kernelspec_front_matter
              (PStr (u "the display_name")) eq_refl eq_refl eq_refl eq_refl)
    as [Hstring _].
  exact (Hstring (u "the display_name") eq_refl eq_refl).
Defined.

Lemma X17_witness :
  @string_to_notebook libraries MoreSamples.host MoreSamples.plain_text MoreSamples.env
  = Value None
  /\ @path_to_notebook libraries MoreSamples.host MoreSamples.notes_path
     = Value (Myst indented_notebook).
Proof.
  exact (@X17_plain_markdown_readers libraries MoreSamples.host
           MoreSamples.plain_text MoreSamples.notes_path MoreSamples.env
           eq_refl eq_refl eq_refl eq_refl).
Defined.

Lemma X18_witness :
  @myst_to_notebook MoreSamples.libraries default_config MoreSamples.notebook_text
  = Return MoreSamples.notebook_result.
Proof.
  destruct (@X18_converted_only_when_accepted MoreSamples.libraries MoreSamples.host
              MoreSamples.notebook_text MoreSamples.env MoreSamples.notebook_result
              eq_refl) as [Hconverted _].
  exact Hconverted.
Defined.


(** X20 on the text with the empty front matter. *)
Lemma X20_witness :
  @myst_to_notebook MoreSamples.libraries default_config
                    MoreSamples.empty_front_matter_text
  = Raise (NotebookValidationError none_metadata_message).
Proof.
  apply (@X20_rejected_notebook_metadata MoreSamples.libraries default_config
           MoreSamples.empty_front_matter_text
           (tok "front_matter" 0 [] (0, 2)) (paragraph "text" 2) PNone);
    reflexivity.
Defined.

End OnMoreSamples.
